(** * Order API (src/app/main_apprunner.py): a shallow embedding

    The FastAPI handlers of [main_apprunner.py] are embedded as computations
    in a state-and-exception monad over a model of the three managed
    services they call (DynamoDB table, EventBridge bus, S3 bucket).
    Python dicts are finite maps with string keys; the f-strings are string
    concatenations; [try]/[except] is [try_except].

    The services are not part of the repository. Each is modelled by the
    state it keeps and by the documented effect of the one operation the
    handlers use on it: [put_item] writes or replaces the item at its key,
    [update_item] sets attributes on the item at a key and creates the item
    when there is none, [query] returns the items of a partition in
    sort-key order, [scan] returns one page of items with their count,
    [put_events] returns the number of entries the bus did not accept.
    Whether a call raises, whether the bus accepts an entry and where a
    scan page ends is decided by the environment of the request. *)

From Stdlib Require Import ZArith.
From stdpp Require Import gmap strings list fin_maps pretty.

Open Scope Z_scope.
Open Scope string_scope.

(** ** JSON values as Python sees them ([Dict[str, Any]] after parsing) *)

#[local] Unset Elimination Schemes.
Inductive value : Type :=
  | VNone
  | VBool (b : bool)
  | VInt (n : Z)
  | VFloat (bits : Z)          (* an IEEE double, carried opaquely *)
  | VStr (s : string)
  | VList (l : list value)
  | VDict (d : gmap string value).
#[local] Set Elimination Schemes.

(** A Python [dict] with string keys. *)
Abbreviation dict := (gmap string value).

(** ** Exceptions *)

Inductive exn : Type :=
  | HTTPException (status_code : Z) (detail : string)
  | Exception (msg : string).   (* any other exception, with its [str(e)] *)

(** [str(e)]; Starlette renders an HTTPException as "<status>: <detail>". *)
Definition str_exn (e : exn) : string :=
  match e with
  | HTTPException c d => pretty c +:+ ": " +:+ d
  | Exception msg => msg
  end.

(** ** The managed services *)

(** Modelled from the spec: the table's key schema is declared outside
    [src/]; the spec gives a composite key, partition key [pk] and sort key
    [sk], both strings. *)
Abbreviation key := (string * string)%type.

Record Entry := mkEntry {
  Source : string;
  DetailType : string;
  Detail : dict;               (* the dict that [json.dumps] serialises *)
  EventBusName : string
}.

Record Object := mkObject {
  Body : dict;                 (* the dict that [json.dumps(..).encode] serialises *)
  ContentType : string
}.

(** Calls issued to the services, in order, whether or not they succeed. *)
Inductive Call : Type :=
  | DescribeTable
  | PutItem (item : dict)
  | Query (pk : string)
  | UpdateItem (k : key) (status timestamp : string)
  | Scan
  | PutEvents (e : Entry)
  | PutObject (bucket file_key : string).

Record World := mkWorld {
  table : gmap key dict;                 (* the DynamoDB table TABLE_NAME *)
  bus : list Entry;                      (* events accepted by EventBridge *)
  objects : gmap (string * string) Object; (* S3: (bucket, key) to object *)
  calls : list Call
}.

(** What one request observes of its environment: the values drawn from
    [uuid.uuid4()] and [datetime.utcnow().isoformat()], and for each
    service whether the call made to it raises, with the exception's
    message ([None]: the call goes through). A fault stands for anything
    the SDK or the service may raise: throttling, a missing table, denied
    access, a value the SDK cannot serialise. No handler calls the same
    service twice.

    Two calls can also fall short without raising. [put_events] can
    return normally while the bus has not accepted the entry
    ([events_rejected]; the reply then has [FailedEntryCount = 1]). A scan
    reply holds one page only: the service cuts it, and [scan_page] is the
    number of items that the one page of this request holds. *)
Record Env := mkEnv {
  uuid4 : string;
  utcnow : string;
  dynamodb_fault : option string;
  events_fault : option string;
  s3_fault : option string;
  events_rejected : bool;
  scan_page : nat
}.

(** Module-level configuration read from the process environment. *)
Record Config := mkConfig {
  TABLE_NAME : string;
  EVENT_BUS_NAME : string;
  S3_BUCKET : string
}.

(** ** The monad: world state plus Python exceptions *)

Inductive outcome (A : Type) : Type :=
  | Ret (a : A)
  | Raise (e : exn).
Arguments Ret {A} a.
Arguments Raise {A} e.

Definition M (A : Type) : Type := World → outcome A * World.

Definition ret {A} (a : A) : M A := λ w, (Ret a, w).
Definition raise {A} (e : exn) : M A := λ w, (Raise e, w).
Definition bind {A B} (f : A → M B) (m : M A) : M B :=
  λ w, match m w with
       | (Ret a, w') => f a w'
       | (Raise e, w') => (Raise e, w')
       end.
Definition try_except {A} (body : M A) (handler : exn → M A) : M A :=
  λ w, match body w with
       | (Ret a, w') => (Ret a, w')
       | (Raise e, w') => handler e w'
       end.
Definition get_world : M World := λ w, (Ret w, w).
Definition set_world (w' : World) : M unit := λ _, (Ret tt, w').

#[global] Instance M_ret : MRet M := @ret.
#[global] Instance M_bind : MBind M := @bind.

Definition record_call (c : Call) : M unit :=
  w ← get_world;
  set_world (mkWorld (table w) (bus w) (objects w) (calls w ++ [c])).

Definition may_fault (f : option string) : M unit :=
  match f with
  | Some msg => raise (Exception msg)
  | None => ret tt
  end.

(** *** DynamoDB table *)

(** The primary key of an item, when the item carries one. *)
Definition item_key (item : dict) : option key :=
  match item !! "pk", item !! "sk" with
  | Some (VStr p), Some (VStr s) =>
      if bool_decide (p ≠ "" ∧ s ≠ "") then Some (p, s) else None
  | _, _ => None
  end.

(** The service's rejection of an item without a well-typed key; the
    message text of the service is not reproduced. *)
Definition validation_error : string := "ValidationException".

(** [table.put_item(Item=item)]: writes or replaces the item at its key. *)
Definition put_item (env : Env) (item : dict) : M unit :=
  record_call (PutItem item);;
  may_fault (dynamodb_fault env);;
  match item_key item with
  | None => raise (Exception validation_error)
  | Some k =>
      w ← get_world;
      set_world (mkWorld (<[k := item]> (table w)) (bus w) (objects w) (calls w))
  end.

(** Items of one partition come back in ascending sort-key order. *)
Fixpoint insert_by_sk (x : key * dict) (l : list (key * dict)) : list (key * dict) :=
  match l with
  | [] => [x]
  | y :: l' =>
      if String.leb x.1.2 y.1.2 then x :: y :: l' else y :: insert_by_sk x l'
  end.

Definition sort_by_sk (l : list (key * dict)) : list (key * dict) :=
  foldr insert_by_sk [] l.

Definition partition_items (pk : string) (t : gmap key dict) : list dict :=
  (sort_by_sk (filter (λ kv, kv.1.1 = pk) (map_to_list t))).*2.

(** The part of a query or scan response that the handlers read. *)
Record Page := mkPage {
  Items : list dict;
  Count : Z
}.

Definition page_of (items : list dict) : Page :=
  mkPage items (Z.of_nat (length items)).

(** [table.query(KeyConditionExpression='pk = :pk', ...)]. A query reply
    is a page too; [get_order] reads its first item only, and the first
    item of the partition is on the first page whenever there is one. *)
Definition query (env : Env) (pk : string) : M Page :=
  record_call (Query pk);;
  may_fault (dynamodb_fault env);;
  w ← get_world;
  mret (page_of (partition_items pk (table w))).

(** [table.scan()]: one call, answered with the first page of the table.
    The reply's [LastEvaluatedKey], which tells that more pages follow, is
    not among the fields the handlers read. *)
Definition scan (env : Env) : M Page :=
  record_call Scan;;
  may_fault (dynamodb_fault env);;
  w ← get_world;
  mret (page_of (take (scan_page env) (map_to_list (table w)).*2)).

(** The item that the service leaves at [k] after
    [SET #status = :status, updated_at = :timestamp]: the two attributes
    are set on the item found there, or on an item holding only the key
    when there is none. *)
Definition updated_item (t : gmap key dict) (k : key) (status timestamp : string) : dict :=
  <["updated_at" := VStr timestamp]>
    (<["status" := VStr status]>
       (default {[ "pk" := VStr k.1; "sk" := VStr k.2 ]} (t !! k))).

(** [table.update_item(Key=k, UpdateExpression='SET #status = :status,
    updated_at = :timestamp', ...)] *)
Definition update_item (env : Env) (k : key) (status timestamp : string) : M unit :=
  record_call (UpdateItem k status timestamp);;
  may_fault (dynamodb_fault env);;
  w ← get_world;
  set_world (mkWorld (<[k := updated_item (table w) k status timestamp]> (table w))
               (bus w) (objects w) (calls w)).

(** [table.table_status] *)
Definition table_status (env : Env) : M unit :=
  record_call DescribeTable;;
  may_fault (dynamodb_fault env).

(** *** EventBridge and S3 *)

(** The part of a [put_events] reply that tells whether the entry was
    accepted. *)
Record PutEventsReply := mkPutEventsReply {
  FailedEntryCount : Z
}.

(** [eventbridge.put_events(Entries=[e])]: raises, or returns a reply.
    The reply either reports the entry accepted, and the entry is on the
    bus, or reports it failed, and the bus is as it was. *)
Definition put_events (env : Env) (e : Entry) : M PutEventsReply :=
  record_call (PutEvents e);;
  may_fault (events_fault env);;
  if events_rejected env then mret (mkPutEventsReply 1)
  else
    w ← get_world;
    set_world (mkWorld (table w) (bus w ++ [e]) (objects w) (calls w));;
    mret (mkPutEventsReply 0).

(** [s3.put_object(Bucket=.., Key=.., Body=.., ContentType=..)] *)
Definition put_object (env : Env) (bucket file_key : string) (o : Object) : M unit :=
  record_call (PutObject bucket file_key);;
  may_fault (s3_fault env);;
  w ← get_world;
  set_world (mkWorld (table w) (bus w) (<[(bucket, file_key) := o]> (objects w)) (calls w)).

(** ** The handlers *)

(** [{**base, **extra}]: the keys of [extra] win. *)
Definition dict_merge (base extra : dict) : dict := extra ∪ base.

(** [not s] on a string. *)
Definition str_falsy (s : string) : bool := bool_decide (s = "").

Definition event_detail (order_id status timestamp : string) : dict :=
  {[ "order_id" := VStr order_id; "status" := VStr status;
     "timestamp" := VStr timestamp ]}.

(** [root] *)
Definition root (cfg : Config) (env : Env) : M dict :=
  mret {[ "message" := VStr "Welcome to High Scalable AWS Architecture API";
          "version" := VStr "1.0.0";
          "timestamp" := VStr (utcnow env);
          "environment" := VDict {[ "table_name" := VStr (TABLE_NAME cfg);
                                    "event_bus" := VStr (EVENT_BUS_NAME cfg);
                                    "s3_bucket" := VStr (S3_BUCKET cfg) ]} ]}.

(** [health_check] *)
Definition health_check (cfg : Config) (env : Env) : M dict :=
  try_except
    (table_status env;;
     mret {[ "status" := VStr "healthy";
             "timestamp" := VStr (utcnow env);
             "services" := VDict {[ "dynamodb" := VStr "connected";
                                    "eventbridge" := VStr "available";
                                    "s3" := VStr "available" ]} ]})
    (λ e, raise (HTTPException 503 ("Service unhealthy: " +:+ str_exn e))).

(** The item that [create_order] builds: the five generated attributes,
    then [**order]. *)
Definition order_item (order_id timestamp : string) (order : dict) : dict :=
  dict_merge
    {[ "pk" := VStr ("ORDER#" +:+ order_id);
       "sk" := VStr ("METADATA#" +:+ timestamp);
       "order_id" := VStr order_id;
       "status" := VStr "created";
       "created_at" := VStr timestamp ]}
    order.

(** [create_order] *)
Definition create_order (cfg : Config) (env : Env) (order : dict) : M dict :=
  try_except
    (let order_id := uuid4 env in
     let timestamp := utcnow env in
     let item := order_item order_id timestamp order in
     put_item env item;;
     put_events env (mkEntry "myapp.orders" "Order Created"
                       (event_detail order_id "created" timestamp)
                       (EVENT_BUS_NAME cfg));;
     mret {[ "order_id" := VStr order_id; "status" := VStr "created";
             "timestamp" := VStr timestamp ]})
    (λ e, raise (HTTPException 500 ("Failed to create order: " +:+ str_exn e))).

(** [except HTTPException: raise] followed by
    [except Exception as e: raise HTTPException(500, prefix + str(e))]. *)
Definition reraise_or_500 {A} (prefix : string) (e : exn) : M A :=
  match e with
  | HTTPException _ _ => raise e
  | Exception _ => raise (HTTPException 500 (prefix +:+ str_exn e))
  end.

(** [get_order] *)
Definition get_order (cfg : Config) (env : Env) (order_id : string) : M dict :=
  try_except
    (response ← query env ("ORDER#" +:+ order_id);
     match Items response with
     | [] => raise (HTTPException 404 "Order not found")
     | item :: _ => mret item
     end)
    (reraise_or_500 "Failed to get order: ").

(** [update_order_status]; [status_data] is a [Dict[str, str]]. *)
Definition update_order_status (cfg : Config) (env : Env) (order_id : string)
    (status_data : gmap string string) : M dict :=
  try_except
    (new_status ←
       match status_data !! "status" with
       | None => raise (HTTPException 400 "Status is required")
       | Some s =>
           if str_falsy s then raise (HTTPException 400 "Status is required")
           else mret s
       end;
     let timestamp := utcnow env in
     update_item env ("ORDER#" +:+ order_id, "METADATA#" +:+ timestamp)
       new_status timestamp;;
     put_events env (mkEntry "myapp.orders" "Order Status Updated"
                       (event_detail order_id new_status timestamp)
                       (EVENT_BUS_NAME cfg));;
     mret {[ "order_id" := VStr order_id; "status" := VStr new_status;
             "timestamp" := VStr timestamp ]})
    (reraise_or_500 "Failed to update order: ").

(** [list_orders] *)
Definition list_orders (cfg : Config) (env : Env) : M dict :=
  try_except
    (response ← scan env;
     mret {[ "orders" := VList (VDict <$> Items response);
             "count" := VInt (Count response) ]})
    (λ e, raise (HTTPException 500 ("Failed to list orders: " +:+ str_exn e))).

Section Formatting.

(** [str(v)] inside an f-string. A string formats as itself; how Python
    prints the other values is left to [py_repr]. *)
Variable py_repr : value → string.

Definition py_str (v : value) : string :=
  match v with
  | VStr s => s
  | _ => py_repr v
  end.

(** [upload_file] *)
Definition upload_file (cfg : Config) (env : Env) (file_data : dict) : M dict :=
  try_except
    ((if str_falsy (S3_BUCKET cfg)
      then raise (HTTPException 500 "S3 bucket not configured")
      else mret tt);;
     let file_key :=
       "uploads/" +:+ uuid4 env +:+ "-" +:+
       py_str (default (VStr "file") (file_data !! "filename")) in
     put_object env (S3_BUCKET cfg) file_key (mkObject file_data "application/json");;
     mret {[ "file_key" := VStr file_key; "bucket" := VStr (S3_BUCKET cfg);
             "timestamp" := VStr (utcnow env) ]})
    (reraise_or_500 "Failed to upload file: ").

End Formatting.

(** ** What the client sees *)

Inductive Response : Type :=
  | OK (body : dict)                          (* 200 with a JSON body *)
  | Error (status_code : Z) (detail : string).

(** The framework turns a returned dict into a 200 response and a raised
    HTTPException into its status code; anything else is a plain 500. *)
Definition respond (h : M dict) (w : World) : Response * World :=
  match h w with
  | (Ret body, w') => (OK body, w')
  | (Raise (HTTPException c d), w') => (Error c d, w')
  | (Raise (Exception _), w') => (Error 500 "Internal Server Error", w')
  end.

Inductive Request : Type :=
  | GET_root
  | GET_health
  | POST_orders (order : dict)
  | GET_order (order_id : string)
  | PUT_order_status (order_id : string) (status_data : gmap string string)
  | GET_orders
  | POST_files_upload (file_data : dict).

Definition route (py_repr : value → string) (cfg : Config) (env : Env)
    (r : Request) : M dict :=
  match r with
  | GET_root => root cfg env
  | GET_health => health_check cfg env
  | POST_orders order => create_order cfg env order
  | GET_order order_id => get_order cfg env order_id
  | PUT_order_status order_id status_data =>
      update_order_status cfg env order_id status_data
  | GET_orders => list_orders cfg env
  | POST_files_upload file_data => upload_file py_repr cfg env file_data
  end.

(** A sequence of requests, each with what it observes of its environment,
    served one after the other. *)
Fixpoint serve (py_repr : value → string) (cfg : Config)
    (reqs : list (Env * Request)) (w : World) : list Response * World :=
  match reqs with
  | [] => ([], w)
  | (env, r) :: reqs' =>
      let '(resp, w') := respond (route py_repr cfg env r) w in
      let '(resps, w'') := serve py_repr cfg reqs' w' in
      (resp :: resps, w'')
  end.

(** ** Names for what the handlers build and what a run hands out *)

(** The key that [update_order_status] addresses: built from the path
    parameter and from the handler's own clock reading. *)
Definition update_key (env : Env) (order_id : string) : key :=
  ("ORDER#" +:+ order_id, "METADATA#" +:+ utcnow env).

(** The item that an update creates where the table held none: the key
    and the two attributes of the SET, nothing else. *)
Definition bare_status_item (k : key) (status timestamp : string) : dict :=
  <["updated_at" := VStr timestamp]>
    (<["status" := VStr status]> {[ "pk" := VStr k.1; "sk" := VStr k.2 ]}).

(** The entries that the two writing handlers publish. *)
Definition created_event (cfg : Config) (env : Env) : Entry :=
  mkEntry "myapp.orders" "Order Created"
    (event_detail (uuid4 env) "created" (utcnow env)) (EVENT_BUS_NAME cfg).

Definition status_event (cfg : Config) (env : Env) (order_id status : string) : Entry :=
  mkEntry "myapp.orders" "Order Status Updated"
    (event_detail order_id status (utcnow env)) (EVENT_BUS_NAME cfg).

(** The bus after a publish call that did not raise: with the entry when
    the bus accepted it, as it was when the bus rejected it. *)
Definition bus_after (env : Env) (w : World) (ev : Entry) : list Entry :=
  if events_rejected env then bus w else bus w ++ [ev].

(** The values that the POST /orders calls of a run draw from [uuid4]. *)
Definition drawn_uuids (reqs : list (Env * Request)) : list string :=
  omap (λ p : Env * Request,
          match p.2 with
          | POST_orders _ => Some (uuid4 p.1)
          | _ => None
          end) reqs.

(** ** Concrete configurations, environments and stores *)

Definition cfg0 : Config := mkConfig "OrdersTable" "default" "demo-bucket".
Definition cfg_no_bucket : Config := mkConfig "OrdersTable" "default" "".
Definition w0 : World := mkWorld ∅ [] ∅ [].

(** An environment in which no service call fails, the bus accepts the
    entry and a scan page holds a thousand items. *)
Definition env_ok (uuid now : string) : Env :=
  mkEnv uuid now None None None false 1000.

(** Environments in which one service raises. *)
Definition env_throttled : Env :=
  mkEnv "u9" "t9" (Some "ProvisionedThroughputExceededException") None None false 1000.
Definition env_bus_down : Env :=
  mkEnv "u1" "t1" None (Some "InternalFailure") None false 1000.
Definition env_s3_denied : Env :=
  mkEnv "u7" "t7" None None (Some "AccessDenied") false 1000.

(** Environments in which a call falls short without raising: the bus
    does not accept the entry; a scan page holds one item. *)
Definition env_bus_rejects (uuid now : string) : Env :=
  mkEnv uuid now None None None true 1000.
Definition env_small_page (uuid now : string) : Env :=
  mkEnv uuid now None None None false 1.

(** Request bodies. *)
Definition book_order : dict := {[ "item" := VStr "book"; "qty" := VInt 2 ]}.
Definition shipped_order : dict := {[ "status" := VStr "shipped" ]}.
Definition rekeyed_order : dict := {[ "pk" := VStr "ORDER#elsewhere" ]}.
Definition a_txt : dict := {[ "filename" := VStr "a.txt" ]}.
Definition status_shipped : gmap string string := {[ "status" := "shipped" ]}.
Definition status_empty : gmap string string := {[ "status" := "" ]}.

(** The world after one successful POST /orders on the empty store, for
    each of two bodies. *)
Definition w_book : World :=
  (respond (create_order cfg0 (env_ok "u1" "t1") book_order) w0).2.
Definition w_shipped : World :=
  (respond (create_order cfg0 (env_ok "u1" "t1") shipped_order) w0).2.

(** The empty store after the write of [book_order], and after the
    publish call that follows it when the bus does not accept the entry. *)
Definition w_book_written : World :=
  mkWorld {[ ("ORDER#u1", "METADATA#t1") := order_item "u1" "t1" book_order ]}
    [] ∅ [PutItem (order_item "u1" "t1" book_order)].
Definition w_book_unpublished : World :=
  mkWorld {[ ("ORDER#u1", "METADATA#t1") := order_item "u1" "t1" book_order ]}
    [] ∅ [PutItem (order_item "u1" "t1" book_order);
          PutEvents (created_event cfg0 (env_bus_rejects "u1" "t1"))].

(** [w_book] after a status update issued at a later clock reading. *)
Definition w_book_paid : World :=
  (respond (update_order_status cfg0 (env_ok "u2" "t2") "u1" {[ "status" := "paid" ]})
     w_book).2.

(** What GET /orders answers on [w_book]. *)
Definition book_listing : dict :=
  {[ "orders" := VList [VDict (order_item "u1" "t1" book_order)];
     "count" := VInt 1 ]}.

(** A run that mixes successful and failing requests. *)
Definition mixed_run : list (Env * Request) :=
  [ (env_ok "u1" "t1", POST_orders book_order);
    (env_ok "u2" "t2", PUT_order_status "u1" {[ "status" := "paid" ]});
    (mkEnv "u3" "t3" None (Some "InternalFailure") None false 1000, POST_orders ∅);
    (env_ok "u4" "t4", GET_orders);
    (env_ok "u5" "t5", POST_orders book_order) ].

(** ** Further names used by the statements on whole requests *)

(** The world after one more call has been issued and nothing else has
    changed. *)
Definition logged (w : World) (c : Call) : World :=
  mkWorld (table w) (bus w) (objects w) (calls w ++ [c]).

(** The requests routed to the [@app.get] handlers. *)
Definition is_get (r : Request) : bool :=
  match r with
  | GET_root | GET_health | GET_order _ | GET_orders => true
  | POST_orders _ | PUT_order_status _ _ | POST_files_upload _ => false
  end.

(** The status code of an answer. *)
Definition status_of (resp : Response) : Z :=
  match resp with
  | OK _ => 200
  | Error c _ => c
  end.

(** The answer that [health_check] gives when the probe goes through. *)
Definition healthy_body (env : Env) : dict :=
  {[ "status" := VStr "healthy";
     "timestamp" := VStr (utcnow env);
     "services" := VDict {[ "dynamodb" := VStr "connected";
                            "eventbridge" := VStr "available";
                            "s3" := VStr "available" ]} ]}.

(** The status codes that each handler can raise or return: 200, the
    codes of its own [HTTPException]s, and the code of its [except]
    clause. *)
Definition codes_of (r : Request) : list Z :=
  match r with
  | GET_root => [200]
  | GET_health => [200; 503]
  | POST_orders _ => [200; 500]
  | GET_order _ => [200; 404; 500]
  | PUT_order_status _ _ => [200; 400; 500]
  | GET_orders => [200; 500]
  | POST_files_upload _ => [200; 500]
  end.

(** Every item of the table carries, in its [pk] and [sk] attributes, the
    key it is stored under. *)
Definition keys_agree (t : gmap key dict) : Prop :=
  ∀ k item, t !! k = Some item → item_key item = Some k.

Definition no_filename : dict := {[ "size" := VInt 3 ]}.
Definition status_with_note : gmap string string :=
  {[ "status" := "shipped"; "note" := "fragile" ]}.

(** * Properties *)

(** Unfolds the monad and the service calls so that a handler run reduces
    to a case analysis on the faults and on the store. *)
Ltac run_handler :=
  cbv [respond try_except reraise_or_500 put_item query scan update_item
       table_status put_events put_object record_call may_fault
       get_world set_world raise mbind mret M_bind M_ret bind ret].

(** ** Store lemmas *)

Lemma filter_none {A} (P : A → Prop) `{!∀ x, Decision (P x)} (l : list A) :
  (∀ x, x ∈ l → ¬ P x) → filter P l = [].
Proof.
  induction l as [|x l IH]; intros Hl; [done|].
  rewrite filter_cons_False; [|apply Hl; left].
  apply IH. intros y Hy. apply Hl. by right.
Qed.

Lemma filter_pk_absent (pk : string) (t : gmap key dict) :
  (∀ sk, t !! (pk, sk) = None) →
  filter (λ kv : key * dict, kv.1.1 = pk) (map_to_list t) = [].
Proof.
  intros Hnone. apply filter_none.
  intros [[p s] it] Hin%elem_of_map_to_list Heq; simpl in Heq; subst p.
  by rewrite Hnone in Hin.
Qed.

(** A partition that held nothing holds exactly the item just written. *)
Lemma partition_items_insert_fresh (pk sk : string) (it : dict) (t : gmap key dict) :
  (∀ sk', t !! (pk, sk') = None) →
  partition_items pk (<[(pk, sk) := it]> t) = [it].
Proof.
  intros Hnone. unfold partition_items.
  assert (filter (λ kv : key * dict, kv.1.1 = pk)
            (map_to_list (<[(pk, sk) := it]> t)) = [((pk, sk), it)]) as ->.
  { apply Permutation_singleton_r.
    rewrite map_to_list_insert by apply Hnone.
    rewrite filter_cons_True by done.
    by rewrite filter_pk_absent. }
  done.
Qed.

(** ** GET /orders/{order_id} *)

(** C4: when the query for partition key ORDER#<id> returns a page, the
    handler answers 404 "Order not found" if the page's item list is empty
    and otherwise answers with the first item of the list. *)
Theorem get_order_first_or_404 (cfg : Config) (env : Env) (order_id : string)
    (w w1 : World) (page : Page) :
  query env ("ORDER#" +:+ order_id) w = (Ret page, w1) →
  respond (get_order cfg env order_id) w =
    (match Items page with
     | [] => Error 404 "Order not found"
     | item :: _ => OK item
     end, w1).
Proof.
  intros Hq. unfold respond, get_order, try_except.
  change (mbind ?f ?m) with (bind f m). unfold bind at 1. rewrite Hq.
  by destruct (Items page).
Qed.

Lemma get_order_first_or_404_witness :
  (respond (get_order cfg0 (env_ok "u2" "t2") "u1") w_book).1
  = OK (order_item "u1" "t1" book_order).
Proof.
  rewrite (get_order_first_or_404 cfg0 (env_ok "u2" "t2") "u1" w_book
             (mkWorld (table w_book) (bus w_book) (objects w_book)
                (calls w_book ++ [Query "ORDER#u1"]))
             (page_of [order_item "u1" "t1" book_order])).
  - reflexivity.
  - vm_compute. reflexivity.
Defined.

(** The handler has no other way to answer 404: it does so exactly when
    the query succeeded with no item. *)
Lemma get_order_404_iff (cfg : Config) (env : Env) (order_id : string) (w : World) :
  (∃ d, (respond (get_order cfg env order_id) w).1 = Error 404 d) ↔
  dynamodb_fault env = None ∧ partition_items ("ORDER#" +:+ order_id) (table w) = [].
Proof.
  unfold get_order. run_handler.
  destruct (dynamodb_fault env) as [msg|]; simpl.
  - split; [intros [d Hd]; discriminate | intros [? _]; discriminate].
  - destruct (partition_items _ _) eqn:Hp; simpl.
    + split; eauto.
    + split; [intros [d Hd]; discriminate | intros [_ ?]; discriminate].
Qed.

(** ** GET /orders *)

(** C6: whenever GET /orders succeeds, its body has an [orders] list and a
    [count] equal to the length of that list. *)
Theorem list_orders_count (cfg : Config) (env : Env) (w w' : World) (body : dict) :
  respond (list_orders cfg env) w = (OK body, w') →
  ∃ orders : list value,
    body !! "orders" = Some (VList orders) ∧
    body !! "count" = Some (VInt (Z.of_nat (length orders))).
Proof.
  unfold list_orders. run_handler.
  destruct (dynamodb_fault env) as [msg|]; simpl; [discriminate|].
  intros [= <- _].
  exists (VDict <$> take (scan_page env) (map_to_list (table w)).*2). split.
  - done.
  - by rewrite length_fmap.
Qed.

Lemma list_orders_count_witness :
  ∃ orders : list value,
    book_listing !! "orders" = Some (VList orders) ∧
    book_listing !! "count" = Some (VInt (Z.of_nat (length orders))).
Proof.
  apply (list_orders_count cfg0 (env_ok "u2" "t2") w_book
           (mkWorld (table w_book) (bus w_book) (objects w_book)
              (calls w_book ++ [Scan]))).
  vm_compute. reflexivity.
Defined.

(** ** PUT /orders/{order_id}/status *)

(** Every run of the handler, by cases on the body and on the faults. *)
Lemma update_order_status_run (cfg : Config) (env : Env) (order_id : string)
    (status_data : gmap string string) (w : World) :
  respond (update_order_status cfg env order_id status_data) w =
    match status_data !! "status" with
    | None => (Error 400 "Status is required", w)
    | Some s =>
        if str_falsy s then (Error 400 "Status is required", w)
        else
          let k := update_key env order_id in
          let c1 := (calls w ++ [UpdateItem k s (utcnow env)])%list in
          match dynamodb_fault env with
          | Some msg =>
              (Error 500 ("Failed to update order: " +:+ msg),
               mkWorld (table w) (bus w) (objects w) c1)
          | None =>
              let t' := <[k := updated_item (table w) k s (utcnow env)]> (table w) in
              let ev := status_event cfg env order_id s in
              let c2 := (c1 ++ [PutEvents ev])%list in
              match events_fault env with
              | Some msg =>
                  (Error 500 ("Failed to update order: " +:+ msg),
                   mkWorld t' (bus w) (objects w) c2)
              | None =>
                  (OK {[ "order_id" := VStr order_id; "status" := VStr s;
                         "timestamp" := VStr (utcnow env) ]},
                   mkWorld t' (bus_after env w ev) (objects w) c2)
              end
          end
    end.
Proof.
  unfold update_order_status. run_handler.
  destruct (status_data !! "status") as [s|]; simpl; [|done].
  destruct (str_falsy s); simpl; [done|].
  destruct (dynamodb_fault env); simpl; [done|].
  destruct (events_fault env); simpl; [done|].
  unfold bus_after. by destruct (events_rejected env).
Qed.

Lemma updated_item_absent (t : gmap key dict) (k : key) (status timestamp : string) :
  t !! k = None → updated_item t k status timestamp = bare_status_item k status timestamp.
Proof. intros Hk. unfold updated_item, bare_status_item. by rewrite Hk. Qed.

Lemma str_falsy_false (s : string) : s ≠ "" → str_falsy s = false.
Proof. intros Hs. unfold str_falsy. by apply bool_decide_eq_false. Qed.

(** C9: a body whose [status] is the empty string is answered 400 "Status
    is required", with the world untouched, exactly as the same body
    without a [status] field is. With [status_data = ∅] the two bodies are
    [{"status": ""}] and [{}]. *)
Theorem update_status_empty_string_400 (cfg : Config) (env : Env)
    (order_id : string) (status_data : gmap string string) (w : World) :
  respond (update_order_status cfg env order_id (<["status" := ""]> status_data)) w
    = (Error 400 "Status is required", w) ∧
  respond (update_order_status cfg env order_id (delete "status" status_data)) w
    = (Error 400 "Status is required", w).
Proof.
  rewrite !update_order_status_run.
  by rewrite lookup_insert_eq, lookup_delete_eq.
Qed.

(** C3, as stated, fails: the body [{"status": ""}] has a status field and
    is answered 400 all the same. *)
Lemma update_status_400_with_status_present :
  status_empty !! "status" ≠ None ∧
  respond (update_order_status cfg0 (env_ok "u9" "t9") "u1" status_empty) w0
    = (Error 400 "Status is required", w0).
Proof. split; [done|]. vm_compute. reflexivity. Qed.

(** C3, amended: the answer is a 400 exactly when the body's [status] is
    missing or empty. With a non-empty [status] the handler issues the
    store update; when neither the update nor the event publish fails it
    answers [{order_id, status, timestamp}] with the status supplied, and
    the table holds the updated item. *)
Theorem update_status_400_iff_falsy (cfg : Config) (env : Env)
    (order_id : string) (status_data : gmap string string) (w : World) :
  let r := respond (update_order_status cfg env order_id status_data) w in
  ((∃ d, r.1 = Error 400 d) ↔
     (status_data !! "status" = None ∨ status_data !! "status" = Some "")) ∧
  (∀ s, status_data !! "status" = Some s → s ≠ "" →
     (∃ rest, calls r.2 =
        (calls w ++ UpdateItem (update_key env order_id) s (utcnow env) :: rest)%list) ∧
     (dynamodb_fault env = None → events_fault env = None →
        r.1 = OK {[ "order_id" := VStr order_id; "status" := VStr s;
                    "timestamp" := VStr (utcnow env) ]} ∧
        table r.2 !! update_key env order_id =
          Some (updated_item (table w) (update_key env order_id) s (utcnow env)))).
Proof.
  intros r. subst r. rewrite update_order_status_run. split.
  - destruct (status_data !! "status") as [s|] eqn:Hs; simpl.
    + destruct (decide (s = "")) as [->|Hne].
      * split; eauto.
      * rewrite (str_falsy_false s Hne).
        split.
        -- intros [d Hd].
           destruct (dynamodb_fault env); [discriminate|].
           destruct (events_fault env); discriminate.
        -- intros [?|[= ?]]; [discriminate|done].
    + split; eauto.
  - intros s Hs Hne. rewrite Hs, (str_falsy_false s Hne). split.
    + destruct (dynamodb_fault env); simpl; [by exists []|].
      destruct (events_fault env); simpl;
        rewrite <-app_assoc; by eexists.
    + intros -> ->. simpl. split; [done|]. by rewrite lookup_insert_eq.
Qed.

Lemma update_status_400_iff_falsy_witness :
  (respond (update_order_status cfg0 (env_ok "u9" "t9") "u1" status_shipped) w0).1
  = OK {[ "order_id" := VStr "u1"; "status" := VStr "shipped";
          "timestamp" := VStr "t9" ]}.
Proof.
  pose proof (update_status_400_iff_falsy cfg0 (env_ok "u9" "t9") "u1"
                status_shipped w0) as [_ H].
  destruct (H "shipped") as [_ Hok]; [reflexivity | discriminate |].
  apply Hok; reflexivity.
Defined.

(** C1, as stated, fails: an empty status is a status value that is not
    missing, and for it the handler writes nothing at all. *)
Lemma update_status_empty_writes_nothing :
  status_empty !! "status" = Some "" ∧
  (respond (update_order_status cfg0 (env_ok "u9" "t9") "u1" status_empty) w_book).2
    = w_book.
Proof. split; [done|]. vm_compute. reflexivity. Qed.

(** C1, amended: for every order id and every non-empty status, the first
    call the handler issues is the update addressed by
    [(ORDER#<id>, METADATA#<now>)], with [now] read from the clock and not
    from the table. Under that addressing no item at any other key is
    touched (so an item that create-order wrote under another sort key
    stays as it was), and when the update succeeds where the table held
    no item at that key, a new item is created. *)
Theorem update_status_addresses_fresh_key (cfg : Config) (env : Env)
    (order_id : string) (status_data : gmap string string) (s : string) (w : World) :
  status_data !! "status" = Some s → s ≠ "" →
  let k := ("ORDER#" +:+ order_id, "METADATA#" +:+ utcnow env) in
  let w' := (respond (update_order_status cfg env order_id status_data) w).2 in
  (∃ rest, calls w' = (calls w ++ UpdateItem k s (utcnow env) :: rest)%list) ∧
  (∀ k', k' ≠ k → table w' !! k' = table w !! k') ∧
  (dynamodb_fault env = None → table w !! k = None →
     table w' !! k = Some (bare_status_item k s (utcnow env)) ∧
     size (table w') = S (size (table w))).
Proof.
  intros Hs Hne k w'. subst w'.
  rewrite update_order_status_run, Hs, (str_falsy_false s Hne).
  fold (update_key env order_id) in k. subst k.
  split; [|split].
  - destruct (dynamodb_fault env); simpl; [by exists []|].
    destruct (events_fault env); simpl; rewrite <-app_assoc; by eexists.
  - intros k' Hk'.
    destruct (dynamodb_fault env); simpl; [done|].
    destruct (events_fault env); simpl; by rewrite lookup_insert_ne.
  - intros -> Hnone. simpl.
    destruct (events_fault env); simpl;
      rewrite lookup_insert_eq, updated_item_absent by done;
      (split; [done | by apply map_size_insert_None]).
Qed.

Lemma update_status_addresses_fresh_key_witness :
  table (respond (update_order_status cfg0 (env_ok "u9" "t9") "u1" status_shipped)
           w_book).2 !! ("ORDER#u1", "METADATA#t1")
    = Some (order_item "u1" "t1" book_order) ∧
  table (respond (update_order_status cfg0 (env_ok "u9" "t9") "u1" status_shipped)
           w_book).2 !! ("ORDER#u1", "METADATA#t9")
    = Some (bare_status_item ("ORDER#u1", "METADATA#t9") "shipped" "t9").
Proof.
  destruct (update_status_addresses_fresh_key cfg0 (env_ok "u9" "t9") "u1"
              status_shipped "shipped" w_book)
    as (_ & Hother & Hnew); [reflexivity | discriminate |].
  split.
  - rewrite Hother by discriminate. vm_compute. reflexivity.
  - apply Hnew; vm_compute; reflexivity.
Defined.

(** C10, as stated, fails: when the store rejects the update the answer is
    a 500, not a 200, and nothing is upserted. *)
Lemma update_status_missing_order_500 :
  (∀ sk, table w0 !! ("ORDER#" +:+ "nobody", sk) = None) ∧
  respond (update_order_status cfg0 env_throttled "nobody" status_shipped) w0
  = (Error 500 "Failed to update order: ProvisionedThroughputExceededException",
     mkWorld ∅ [] ∅ [UpdateItem ("ORDER#nobody", "METADATA#t9") "shipped" "t9"]).
Proof. split; [done|]. vm_compute. reflexivity. Qed.

(** C10, amended: for an order id with no record in the table and a
    non-empty status the answer is never a 404; when neither the store
    update nor the event publish fails the answer is 200 and the table
    gains one record, at [(ORDER#<id>, METADATA#<now>)], which is then the
    only record of that order. *)
Theorem update_status_upserts_missing_order (cfg : Config) (env : Env)
    (order_id : string) (status_data : gmap string string) (s : string) (w : World) :
  status_data !! "status" = Some s → s ≠ "" →
  (∀ sk, table w !! ("ORDER#" +:+ order_id, sk) = None) →
  let k := ("ORDER#" +:+ order_id, "METADATA#" +:+ utcnow env) in
  let r := respond (update_order_status cfg env order_id status_data) w in
  (∀ d, r.1 ≠ Error 404 d) ∧
  (dynamodb_fault env = None → events_fault env = None →
     r.1 = OK {[ "order_id" := VStr order_id; "status" := VStr s;
                 "timestamp" := VStr (utcnow env) ]} ∧
     table r.2 = <[k := bare_status_item k s (utcnow env)]> (table w) ∧
     partition_items ("ORDER#" +:+ order_id) (table r.2)
       = [bare_status_item k s (utcnow env)]).
Proof.
  intros Hs Hne Hnone k r. subst r.
  rewrite update_order_status_run, Hs, (str_falsy_false s Hne).
  fold (update_key env order_id) in k. subst k.
  split.
  - intros d.
    destruct (dynamodb_fault env); simpl; [discriminate|].
    destruct (events_fault env); discriminate.
  - intros -> ->. simpl.
    rewrite updated_item_absent by apply Hnone.
    split; [done|]. split; [done|].
    by apply partition_items_insert_fresh.
Qed.

Lemma update_status_upserts_missing_order_witness :
  (respond (update_order_status cfg0 (env_ok "u9" "t9") "nobody" status_shipped) w0).1
  = OK {[ "order_id" := VStr "nobody"; "status" := VStr "shipped";
          "timestamp" := VStr "t9" ]}.
Proof.
  destruct (update_status_upserts_missing_order cfg0 (env_ok "u9" "t9") "nobody"
              status_shipped "shipped" w0)
    as (_ & Hok); [reflexivity | discriminate | done |].
  apply Hok; reflexivity.
Defined.

(** ** POST /files/upload *)

(** C7, as stated, fails: with a bucket configured, a failing object-store
    call makes the answer a 500 and not [{file_key, bucket, timestamp}]. *)
Lemma upload_file_configured_yet_500 :
  S3_BUCKET cfg0 ≠ "" ∧
  respond (upload_file (λ _, "") cfg0 env_s3_denied a_txt) w0
  = (Error 500 "Failed to upload file: AccessDenied",
     mkWorld ∅ [] ∅ [PutObject "demo-bucket" "uploads/u7-a.txt"]).
Proof. split; [done|]. vm_compute. reflexivity. Qed.

(** C7, amended: with an empty bucket setting the answer is the 500
    "S3 bucket not configured" and the world is untouched, so no
    object-store call was issued. With a bucket configured and the
    object-store write not failing, the answer is
    [{file_key, bucket, timestamp}], the key starts with [uploads/], and
    the object is stored under it; with the write failing, the answer is
    a 500 and nothing is stored. *)
Theorem upload_file_unconfigured_500 (py_repr : value → string) (cfg : Config)
    (env : Env) (file_data : dict) (w : World) :
  let r := respond (upload_file py_repr cfg env file_data) w in
  (S3_BUCKET cfg = "" → r = (Error 500 "S3 bucket not configured", w)) ∧
  (S3_BUCKET cfg ≠ "" → s3_fault env = None →
     ∃ file_key name,
       file_key = "uploads/" +:+ name ∧
       r.1 = OK {[ "file_key" := VStr file_key; "bucket" := VStr (S3_BUCKET cfg);
                   "timestamp" := VStr (utcnow env) ]} ∧
       objects r.2 !! (S3_BUCKET cfg, file_key)
         = Some (mkObject file_data "application/json") ∧
       calls r.2 = (calls w ++ [PutObject (S3_BUCKET cfg) file_key])%list) ∧
  (∀ msg, S3_BUCKET cfg ≠ "" → s3_fault env = Some msg →
     r.1 = Error 500 ("Failed to upload file: " +:+ msg) ∧ objects r.2 = objects w).
Proof.
  intros r. subst r. unfold upload_file. run_handler. split; [|split].
  - intros ->. reflexivity.
  - intros Hb ->. rewrite (str_falsy_false _ Hb). simpl.
    eexists _, _. split; [reflexivity|].
    split; [reflexivity|]. split; [by rewrite lookup_insert_eq|done].
  - intros msg Hb ->. by rewrite (str_falsy_false _ Hb).
Qed.

Lemma upload_file_unconfigured_500_witness :
  respond (upload_file (λ _, "") cfg_no_bucket (env_ok "u7" "t7") a_txt) w0
    = (Error 500 "S3 bucket not configured", w0) ∧
  ∃ file_key name,
    file_key = "uploads/" +:+ name ∧
    (respond (upload_file (λ _, "") cfg0 (env_ok "u7" "t7") a_txt) w0).1
      = OK {[ "file_key" := VStr file_key; "bucket" := VStr "demo-bucket";
              "timestamp" := VStr "t7" ]}.
Proof.
  split.
  - apply (upload_file_unconfigured_500 (λ _, "") cfg_no_bucket). reflexivity.
  - destruct (upload_file_unconfigured_500 (λ _, "") cfg0 (env_ok "u7" "t7")
                a_txt w0) as (_ & H & _).
    destruct H as (fk & name & Hfk & Hr & _); [discriminate | reflexivity |].
    by exists fk, name.
Defined.

(** The key is [uploads/<uuid>-<filename>]. *)
Example upload_file_key :
  (respond (upload_file (λ _, "") cfg0 (env_ok "u7" "t7") a_txt) w0).1
  = OK {[ "file_key" := VStr "uploads/u7-a.txt"; "bucket" := VStr "demo-bucket";
          "timestamp" := VStr "t7" ]}.
Proof. vm_compute. reflexivity. Qed.

(** ** POST /orders *)

(** Every run of [create_order], by cases on the faults and on the key of
    the item built. *)
Lemma create_order_run (cfg : Config) (env : Env) (order : dict) (w : World) :
  respond (create_order cfg env order) w =
    let item := order_item (uuid4 env) (utcnow env) order in
    let c1 := (calls w ++ [PutItem item])%list in
    match dynamodb_fault env with
    | Some msg =>
        (Error 500 ("Failed to create order: " +:+ msg),
         mkWorld (table w) (bus w) (objects w) c1)
    | None =>
        match item_key item with
        | None =>
            (Error 500 ("Failed to create order: " +:+ validation_error),
             mkWorld (table w) (bus w) (objects w) c1)
        | Some k =>
            let t' := <[k := item]> (table w) in
            let c2 := (c1 ++ [PutEvents (created_event cfg env)])%list in
            match events_fault env with
            | Some msg =>
                (Error 500 ("Failed to create order: " +:+ msg),
                 mkWorld t' (bus w) (objects w) c2)
            | None =>
                (OK {[ "order_id" := VStr (uuid4 env); "status" := VStr "created";
                       "timestamp" := VStr (utcnow env) ]},
                 mkWorld t' (bus_after env w (created_event cfg env)) (objects w) c2)
            end
        end
    end.
Proof.
  unfold create_order. run_handler.
  destruct (dynamodb_fault env); simpl; [done|].
  destruct (item_key _); simpl; [|done].
  destruct (events_fault env); simpl; [done|].
  unfold bus_after. by destruct (events_rejected env).
Qed.

Lemma put_item_ok (env : Env) (item : dict) (w w1 : World) :
  put_item env item w = (Ret tt, w1) →
  dynamodb_fault env = None ∧
  ∃ k, item_key item = Some k ∧
       w1 = mkWorld (<[k := item]> (table w)) (bus w) (objects w)
              (calls w ++ [PutItem item]).
Proof.
  unfold put_item. run_handler.
  destruct (dynamodb_fault env); simpl; [discriminate|].
  destruct (item_key item) as [k|]; simpl; [|discriminate].
  intros [= <-]. eauto.
Qed.

Lemma put_events_raises (env : Env) (ev : Entry) (w w2 : World) (e : exn) :
  put_events env ev w = (Raise e, w2) →
  events_fault env = Some (str_exn e) ∧
  w2 = mkWorld (table w) (bus w) (objects w) (calls w ++ [PutEvents ev]).
Proof.
  unfold put_events. run_handler.
  destruct (events_fault env); simpl.
  - by intros [= <- <-].
  - destruct (events_rejected env); discriminate.
Qed.

Lemma put_events_not_accepted (env : Env) (ev : Entry) (w w2 : World)
    (reply : PutEventsReply) :
  put_events env ev w = (Ret reply, w2) → FailedEntryCount reply ≠ 0 →
  events_fault env = None ∧ events_rejected env = true ∧
  w2 = mkWorld (table w) (bus w) (objects w) (calls w ++ [PutEvents ev]).
Proof.
  unfold put_events. run_handler.
  destruct (events_fault env); simpl; [discriminate|].
  destruct (events_rejected env); simpl.
  - by intros [= <- <-].
  - by intros [= <- <-].
Qed.

(** C5, as stated, fails: the write succeeds, the publish fails without
    raising (the reply reports the entry failed and the bus holds
    nothing), and the client is answered 200, not 500. The handler never
    reads the reply. *)
Lemma create_order_publish_rejected_200 :
  put_item (env_bus_rejects "u1" "t1") (order_item "u1" "t1" book_order) w0
    = (Ret tt, w_book_written) ∧
  put_events (env_bus_rejects "u1" "t1")
    (created_event cfg0 (env_bus_rejects "u1" "t1")) w_book_written
    = (Ret (mkPutEventsReply 1), w_book_unpublished) ∧
  bus w_book_unpublished = [] ∧
  respond (create_order cfg0 (env_bus_rejects "u1" "t1") book_order) w0
    = (OK {[ "order_id" := VStr "u1"; "status" := VStr "created";
             "timestamp" := VStr "t1" ]}, w_book_unpublished).
Proof.
  split; [vm_compute; reflexivity|].
  split; [vm_compute; reflexivity|].
  split; [reflexivity|]. vm_compute. reflexivity.
Qed.

(** C5, amended: when the store write of a POST /orders succeeds and the
    event publish that follows fails, the record written stays in the
    table and the calls issued are the write and the publish and nothing
    after them: no delete, no second write. If the publish fails by
    raising, the client gets the generic 500 built from the exception's
    message, the same answer as for a failed write with that message. If
    the publish returns with the entry not accepted, the reply is not
    read and the client gets the 200 of a request that went through. In
    neither case does the answer tell the partial write apart. *)
Theorem create_order_partial_write_kept (cfg : Config) (env : Env) (order : dict)
    (w w1 : World) :
  let item := order_item (uuid4 env) (utcnow env) order in
  put_item env item w = (Ret tt, w1) →
  ∃ k, item_key item = Some k ∧
    (∀ e w2,
       put_events env (created_event cfg env) w1 = (Raise e, w2) →
       respond (create_order cfg env order) w
         = (Error 500 ("Failed to create order: " +:+ str_exn e), w2) ∧
       table w2 !! k = Some item ∧
       table w2 = <[k := item]> (table w) ∧
       bus w2 = bus w ∧
       calls w2 = (calls w ++ [PutItem item; PutEvents (created_event cfg env)])%list ∧
       ∀ env', dynamodb_fault env' = Some (str_exn e) →
               (respond (create_order cfg env' order) w).1
               = Error 500 ("Failed to create order: " +:+ str_exn e)) ∧
    (∀ reply w2,
       put_events env (created_event cfg env) w1 = (Ret reply, w2) →
       FailedEntryCount reply ≠ 0 →
       respond (create_order cfg env order) w
         = (OK {[ "order_id" := VStr (uuid4 env); "status" := VStr "created";
                  "timestamp" := VStr (utcnow env) ]}, w2) ∧
       table w2 !! k = Some item ∧
       table w2 = <[k := item]> (table w) ∧
       bus w2 = bus w ∧
       calls w2 = (calls w ++ [PutItem item; PutEvents (created_event cfg env)])%list ∧
       ∀ env', uuid4 env' = uuid4 env → utcnow env' = utcnow env →
               dynamodb_fault env' = None → events_fault env' = None →
               events_rejected env' = false →
               (respond (create_order cfg env' order) w).1
               = (respond (create_order cfg env order) w).1).
Proof.
  intros item Hput. subst item.
  apply put_item_ok in Hput as (Hd & k & Hk & ->).
  exists k. split; [done|]. split.
  - intros e w2 Hev.
    apply put_events_raises in Hev as (He & ->). simpl.
    rewrite create_order_run. cbv zeta. rewrite Hd, Hk, He.
    rewrite lookup_insert_eq, <-app_assoc.
    repeat (split; [done|]).
    intros env' Hd'. rewrite create_order_run. cbv zeta. by rewrite Hd'.
  - intros reply w2 Hev Hfailed.
    apply put_events_not_accepted in Hev as (He & Hr & ->); [|done]. simpl.
    rewrite create_order_run. cbv zeta. rewrite Hd, Hk, He.
    unfold bus_after. rewrite Hr.
    rewrite lookup_insert_eq, <-app_assoc.
    repeat (split; [done|]).
    intros env' Hu Ht Hd' He' _. rewrite create_order_run. cbv zeta.
    rewrite Hd', He', Hu, Ht, Hk. done.
Qed.

Lemma create_order_partial_write_kept_witness :
  (respond (create_order cfg0 env_bus_down book_order) w0).1
    = Error 500 "Failed to create order: InternalFailure" ∧
  table (respond (create_order cfg0 env_bus_down book_order) w0).2
    !! ("ORDER#u1", "METADATA#t1")
    = Some (order_item "u1" "t1" book_order) ∧
  (respond (create_order cfg0 (env_bus_rejects "u1" "t1") book_order) w0).1
    = OK {[ "order_id" := VStr "u1"; "status" := VStr "created";
            "timestamp" := VStr "t1" ]} ∧
  bus (respond (create_order cfg0 (env_bus_rejects "u1" "t1") book_order) w0).2 = [].
Proof.
  destruct (create_order_partial_write_kept cfg0 env_bus_down book_order w0
              w_book_written)
    as (k & Hk & Hraise & _); [vm_compute; reflexivity|].
  destruct (create_order_partial_write_kept cfg0 (env_bus_rejects "u1" "t1") book_order w0
              w_book_written)
    as (k' & _ & _ & Hrejected); [vm_compute; reflexivity|].
  destruct (Hraise (Exception "InternalFailure")
              (mkWorld {[ ("ORDER#u1", "METADATA#t1") := order_item "u1" "t1" book_order ]}
                 [] ∅ [PutItem (order_item "u1" "t1" book_order);
                       PutEvents (created_event cfg0 env_bus_down)]))
    as (Hr & Hin & _); [vm_compute; reflexivity|].
  destruct (Hrejected (mkPutEventsReply 1) w_book_unpublished)
    as (Hr' & _ & _ & Hbus & _); [vm_compute; reflexivity | discriminate |].
  vm_compute in Hk. injection Hk as <-.
  rewrite Hr, Hr'.
  split; [reflexivity|]. split; [exact Hin|]. split; [reflexivity|]. reflexivity.
Defined.

Lemma create_order_returns_uuid (cfg : Config) (env : Env) (order : dict)
    (w w' : World) (body : dict) :
  respond (create_order cfg env order) w = (OK body, w') →
  body !! "order_id" = Some (VStr (uuid4 env)).
Proof.
  rewrite create_order_run. cbv zeta.
  destruct (dynamodb_fault env); [discriminate|].
  destruct (item_key _); [|discriminate].
  destruct (events_fault env); [discriminate|].
  by intros [= <- _].
Qed.

(** The answer at position [i] of a run is the answer of the handler
    routed to, in the world that the requests before it have left. *)
Lemma serve_lookup (py_repr : value → string) (cfg : Config)
    (reqs : list (Env * Request)) (w : World) (i : nat) (env : Env) (r : Request) :
  reqs !! i = Some (env, r) →
  ∃ wi, (serve py_repr cfg reqs w).1 !! i = Some (respond (route py_repr cfg env r) wi).1.
Proof.
  revert w i. induction reqs as [|[env0 r0] reqs IH]; intros w i Hi; [done|].
  simpl.
  destruct (respond (route py_repr cfg env0 r0) w) as [resp w1] eqn:Hresp.
  destruct i as [|i]; simpl in Hi.
  - injection Hi as -> ->. exists w.
    destruct (serve py_repr cfg reqs w1) as [resps w2]. simpl. by rewrite Hresp.
  - destruct (IH w1 i Hi) as [wi Hwi]. exists wi.
    by destruct (serve py_repr cfg reqs w1) as [resps w2].
Qed.

Lemma drawn_uuids_distinct (reqs : list (Env * Request)) (i j : nat)
    (env_i env_j : Env) (order_i order_j : dict) :
  NoDup (drawn_uuids reqs) → (i < j)%nat →
  reqs !! i = Some (env_i, POST_orders order_i) →
  reqs !! j = Some (env_j, POST_orders order_j) →
  uuid4 env_i ≠ uuid4 env_j.
Proof.
  revert i j. induction reqs as [|[env0 r0] reqs IH]; intros i j Hnd Hij Hi Hj; [done|].
  destruct j as [|j]; [lia|]. simpl in Hj.
  destruct i as [|i]; simpl in Hi.
  - injection Hi as -> ->. unfold drawn_uuids in Hnd. simpl in Hnd.
    apply NoDup_cons in Hnd as [Hnotin _]. intros Heq. apply Hnotin.
    apply list_elem_of_omap. exists (env_j, POST_orders order_j).
    split; [by eapply list_elem_of_lookup_2|]. simpl. by rewrite Heq.
  - apply (IH i j); [|lia|done|done].
    unfold drawn_uuids in *. simpl in Hnd.
    destruct r0; simpl in Hnd; try done. by apply NoDup_cons in Hnd as [_ ?].
Qed.

(** C8: over any run of requests in which the values that the POST /orders
    calls draw from the identifier generator are pairwise distinct, every
    successful POST /orders answers with an [order_id], namely the value
    it drew, and the [order_id] of each successful POST /orders differs
    from the one of every successful POST /orders before it. The table is
    never consulted for this. *)
Theorem created_ids_fresh (py_repr : value → string) (cfg : Config)
    (reqs : list (Env * Request)) (w : World) :
  NoDup (drawn_uuids reqs) →
  (∀ i env order body,
     reqs !! i = Some (env, POST_orders order) →
     (serve py_repr cfg reqs w).1 !! i = Some (OK body) →
     body !! "order_id" = Some (VStr (uuid4 env))) ∧
  (∀ i j env_i order_i body_i env_j order_j body_j,
     (i < j)%nat →
     reqs !! i = Some (env_i, POST_orders order_i) →
     (serve py_repr cfg reqs w).1 !! i = Some (OK body_i) →
     reqs !! j = Some (env_j, POST_orders order_j) →
     (serve py_repr cfg reqs w).1 !! j = Some (OK body_j) →
     body_i !! "order_id" ≠ body_j !! "order_id").
Proof.
  intros Hnd.
  assert (∀ i env order body,
            reqs !! i = Some (env, POST_orders order) →
            (serve py_repr cfg reqs w).1 !! i = Some (OK body) →
            body !! "order_id" = Some (VStr (uuid4 env))) as Hid.
  { intros i env order body Hi Hresp.
    destruct (serve_lookup py_repr cfg reqs w i env _ Hi) as [wi Hwi].
    rewrite Hwi in Hresp. injection Hresp as Hresp. cbn [route] in Hresp.
    destruct (respond (create_order cfg env order) wi) as [resp wi'] eqn:Hrun.
    simpl in Hresp. subst resp. by eapply create_order_returns_uuid. }
  split; [exact Hid|].
  intros i j env_i order_i body_i env_j order_j body_j Hij Hi Hri Hj Hrj.
  rewrite (Hid _ _ _ _ Hi Hri), (Hid _ _ _ _ Hj Hrj).
  intros [= Heq]. by eapply (drawn_uuids_distinct reqs i j).
Qed.

Lemma created_ids_fresh_witness :
  ∃ body_0 body_4,
    (serve (λ _, "") cfg0 mixed_run w0).1 !! 0%nat = Some (OK body_0) ∧
    (serve (λ _, "") cfg0 mixed_run w0).1 !! 4%nat = Some (OK body_4) ∧
    body_0 !! "order_id" = Some (VStr "u1") ∧
    body_4 !! "order_id" = Some (VStr "u5") ∧
    body_0 !! "order_id" ≠ body_4 !! "order_id".
Proof.
  destruct (created_ids_fresh (λ _, "") cfg0 mixed_run w0) as [Hid Hfresh].
  { apply (bool_decide_unpack _). vm_compute. exact I. }
  exists {[ "order_id" := VStr "u1"; "status" := VStr "created";
            "timestamp" := VStr "t1" ]},
         {[ "order_id" := VStr "u5"; "status" := VStr "created";
            "timestamp" := VStr "t5" ]}.
  assert ((serve (λ _, "") cfg0 mixed_run w0).1 !! 0%nat
          = Some (OK {[ "order_id" := VStr "u1"; "status" := VStr "created";
                        "timestamp" := VStr "t1" ]})) as H0
    by (vm_compute; reflexivity).
  assert ((serve (λ _, "") cfg0 mixed_run w0).1 !! 4%nat
          = Some (OK {[ "order_id" := VStr "u5"; "status" := VStr "created";
                        "timestamp" := VStr "t5" ]})) as H4
    by (vm_compute; reflexivity).
  split; [exact H0|]. split; [exact H4|].
  split; [exact (Hid 0%nat (env_ok "u1" "t1") book_order _ eq_refl H0)|].
  split; [exact (Hid 4%nat (env_ok "u5" "t5") book_order _ eq_refl H4)|].
  apply (Hfresh 0%nat 4%nat (env_ok "u1" "t1") book_order _
           (env_ok "u5" "t5") book_order _); [lia | reflexivity | exact H0
                                             | reflexivity | exact H4].
Defined.

(** In [mixed_run] the first and the last POST succeed, the one in
    between is answered 500. *)
Example mixed_run_codes :
  status_of <$> (serve (λ _, "") cfg0 mixed_run w0).1 = [200; 200; 500; 200; 200].
Proof. vm_compute. reflexivity. Qed.

(** ** POST /orders then GET /orders/{order_id} *)

Lemma item_key_pk (item : dict) (k : key) :
  item_key item = Some k → item !! "pk" = Some (VStr k.1).
Proof.
  unfold item_key.
  destruct (item !! "pk") as [[| | | |p| |]|]; try discriminate.
  destruct (item !! "sk") as [[| | | |s| |]|]; try discriminate.
  case_bool_decide; [|discriminate]. by intros [= <-].
Qed.

Lemma order_item_supplied (order_id timestamp : string) (order : dict)
    (f : string) (v : value) :
  order !! f = Some v → order_item order_id timestamp order !! f = Some v.
Proof. intros Hf. unfold order_item, dict_merge. by apply lookup_union_Some_l. Qed.

Lemma order_item_generated (order_id timestamp : string) (order : dict) (f : string) :
  order !! f = None →
  order_item order_id timestamp order !! f =
    ({[ "pk" := VStr ("ORDER#" +:+ order_id);
        "sk" := VStr ("METADATA#" +:+ timestamp);
        "order_id" := VStr order_id;
        "status" := VStr "created";
        "created_at" := VStr timestamp ]} : dict) !! f.
Proof. intros Hf. unfold order_item, dict_merge. by apply lookup_union_r. Qed.

(** C2, as stated, fails: a body that supplies its own [status] is stored
    with that status; the record read back has [status = "shipped"], not
    ["created"]. *)
Lemma get_after_create_status_overridden :
  (respond (create_order cfg0 (env_ok "u1" "t1") shipped_order) w0).1
    = OK {[ "order_id" := VStr "u1"; "status" := VStr "created";
            "timestamp" := VStr "t1" ]} ∧
  ∃ rec, (respond (get_order cfg0 (env_ok "u2" "t2") "u1") w_shipped).1 = OK rec ∧
         rec !! "status" = Some (VStr "shipped") ∧
         rec !! "status" ≠ Some (VStr "created").
Proof.
  split; [vm_compute; reflexivity|].
  exists (order_item "u1" "t1" shipped_order).
  split; [vm_compute; reflexivity|].
  split; [vm_compute; reflexivity|].
  vm_compute. discriminate.
Qed.

(** C2, amended: if POST /orders succeeds with id X for a body that
    supplies no [pk] field, the table held no item of partition ORDER#X
    before, and the query of the GET that follows does not fail, then
    GET /orders/X answers with a record that holds every field of the body
    with the value supplied, and whose [status] is ["created"] when the
    body supplies no [status]. *)
Theorem get_after_create (cfg : Config) (env env' : Env) (order : dict)
    (w w1 : World) (body : dict) :
  respond (create_order cfg env order) w = (OK body, w1) →
  order !! "pk" = None →
  (∀ sk, table w !! ("ORDER#" +:+ uuid4 env, sk) = None) →
  dynamodb_fault env' = None →
  body !! "order_id" = Some (VStr (uuid4 env)) ∧
  ∃ rec w2,
    respond (get_order cfg env' (uuid4 env)) w1 = (OK rec, w2) ∧
    (∀ f v, order !! f = Some v → rec !! f = Some v) ∧
    (order !! "status" = None → rec !! "status" = Some (VStr "created")).
Proof.
  intros Hpost Hpk Hfresh Hq.
  split; [by eapply create_order_returns_uuid|].
  rewrite create_order_run in Hpost. cbv zeta in Hpost.
  destruct (dynamodb_fault env); [discriminate|].
  destruct (item_key _) as [[p s]|] eqn:Hk; [|discriminate].
  destruct (events_fault env); [discriminate|].
  injection Hpost as _ <-.
  apply item_key_pk in Hk as Hp. simpl in Hp.
  rewrite order_item_generated in Hp by done.
  rewrite lookup_insert_eq in Hp. injection Hp as <-.
  exists (order_item (uuid4 env) (utcnow env) order). eexists.
  split; [|split].
  - unfold get_order. run_handler. rewrite Hq. simpl.
    rewrite partition_items_insert_fresh by done. reflexivity.
  - intros f v. apply order_item_supplied.
  - intros Hst. rewrite order_item_generated by done. done.
Qed.

Lemma get_after_create_witness :
  ∃ rec w2,
    respond (get_order cfg0 (env_ok "u2" "t2") "u1") w_book = (OK rec, w2) ∧
    (∀ f v, book_order !! f = Some v → rec !! f = Some v) ∧
    (book_order !! "status" = None → rec !! "status" = Some (VStr "created")).
Proof.
  apply (get_after_create cfg0 (env_ok "u1" "t1") (env_ok "u2" "t2") book_order w0 w_book
           {[ "order_id" := VStr "u1"; "status" := VStr "created";
              "timestamp" := VStr "t1" ]}).
  - vm_compute. reflexivity.
  - reflexivity.
  - intros sk. reflexivity.
  - reflexivity.
Defined.

(** A body that supplies its own [pk] is stored in the partition it
    names, and the order id returned leads nowhere. *)
Example get_after_create_pk_overridden :
  (respond (create_order cfg0 (env_ok "u1" "t1") rekeyed_order) w0).1
    = OK {[ "order_id" := VStr "u1"; "status" := VStr "created";
            "timestamp" := VStr "t1" ]} ∧
  (respond (get_order cfg0 (env_ok "u2" "t2") "u1")
     (respond (create_order cfg0 (env_ok "u1" "t1") rekeyed_order) w0).2).1
    = Error 404 "Order not found".
Proof. split; vm_compute; reflexivity. Qed.

(** POST, then PUT status at a later clock reading, then GET: the table
    holds two items for the order, and the read returns the one that
    create-order wrote, still ["created"]. *)
Example status_update_leaves_created_item :
  size (table w_book_paid) = 2%nat ∧
  (respond (get_order cfg0 (env_ok "u3" "t3") "u1") w_book_paid).1
    = OK (order_item "u1" "t1" book_order) ∧
  order_item "u1" "t1" book_order !! "status" = Some (VStr "created").
Proof. repeat split; vm_compute; reflexivity. Qed.

(** * Further properties of the handlers *)

(** ** Every run of the remaining handlers *)

Lemma health_check_run (cfg : Config) (env : Env) (w : World) :
  respond (health_check cfg env) w =
    (match dynamodb_fault env with
     | None => OK (healthy_body env)
     | Some msg => Error 503 ("Service unhealthy: " +:+ msg)
     end, logged w DescribeTable).
Proof.
  unfold health_check, logged. run_handler.
  destruct (dynamodb_fault env); done.
Qed.

Lemma get_order_run (cfg : Config) (env : Env) (order_id : string) (w : World) :
  respond (get_order cfg env order_id) w =
    (match dynamodb_fault env with
     | Some msg => Error 500 ("Failed to get order: " +:+ msg)
     | None =>
         match partition_items ("ORDER#" +:+ order_id) (table w) with
         | [] => Error 404 "Order not found"
         | item :: _ => OK item
         end
     end, logged w (Query ("ORDER#" +:+ order_id))).
Proof.
  unfold get_order, logged. run_handler.
  destruct (dynamodb_fault env); simpl; [done|].
  destruct (partition_items _ _); done.
Qed.

Lemma list_orders_run (cfg : Config) (env : Env) (w : World) :
  respond (list_orders cfg env) w =
    (match dynamodb_fault env with
     | Some msg => Error 500 ("Failed to list orders: " +:+ msg)
     | None =>
         OK {[ "orders" :=
                 VList (VDict <$> take (scan_page env) (map_to_list (table w)).*2);
               "count" :=
                 VInt (Z.of_nat (length (take (scan_page env)
                                           (map_to_list (table w)).*2))) ]}
     end, logged w Scan).
Proof.
  unfold list_orders, logged. run_handler.
  destruct (dynamodb_fault env); done.
Qed.

Lemma upload_file_run (py_repr : value → string) (cfg : Config) (env : Env)
    (file_data : dict) (w : World) :
  respond (upload_file py_repr cfg env file_data) w =
    if str_falsy (S3_BUCKET cfg) then (Error 500 "S3 bucket not configured", w)
    else
      let file_key :=
        "uploads/" +:+ uuid4 env +:+ "-" +:+
        py_str py_repr (default (VStr "file") (file_data !! "filename")) in
      let c := (calls w ++ [PutObject (S3_BUCKET cfg) file_key])%list in
      match s3_fault env with
      | Some msg =>
          (Error 500 ("Failed to upload file: " +:+ msg),
           mkWorld (table w) (bus w) (objects w) c)
      | None =>
          (OK {[ "file_key" := VStr file_key; "bucket" := VStr (S3_BUCKET cfg);
                 "timestamp" := VStr (utcnow env) ]},
           mkWorld (table w) (bus w)
             (<[(S3_BUCKET cfg, file_key) := mkObject file_data "application/json"]>
                (objects w)) c)
      end.
Proof.
  unfold upload_file. run_handler.
  destruct (str_falsy _); simpl; [done|].
  destruct (s3_fault env); done.
Qed.

Lemma root_run (cfg : Config) (env : Env) (w : World) :
  ∃ body, respond (root cfg env) w = (OK body, w).
Proof. unfold root. run_handler. by eexists. Qed.

(** ** GET /health *)



(** ** All handlers *)

(** X2: a request to one of the GET routes leaves the table, the event
    bus and the object store as they were, whatever the faults. *)
Theorem get_requests_read_only (py_repr : value → string) (cfg : Config)
    (env : Env) (r : Request) (w : World) :
  is_get r = true →
  table (respond (route py_repr cfg env r) w).2 = table w ∧
  bus (respond (route py_repr cfg env r) w).2 = bus w ∧
  objects (respond (route py_repr cfg env r) w).2 = objects w.
Proof.
  destruct r; try discriminate; intros _; cbn [route].
  - by destruct (root_run cfg env w) as [body ->].
  - by rewrite health_check_run.
  - by rewrite get_order_run.
  - by rewrite list_orders_run.
Qed.

Lemma get_requests_read_only_witness :
  table (respond (route (λ _, "") cfg0 (env_ok "u2" "t2") (GET_order "u1")) w_book).2
    = table w_book ∧
  bus (respond (route (λ _, "") cfg0 (env_ok "u2" "t2") (GET_order "u1")) w_book).2
    = bus w_book ∧
  objects (respond (route (λ _, "") cfg0 (env_ok "u2" "t2") (GET_order "u1")) w_book).2
    = objects w_book.
Proof.
  apply (get_requests_read_only (λ _, "") cfg0 (env_ok "u2" "t2") (GET_order "u1")).
  reflexivity.
Defined.

(** X3: no handler lets an exception other than an HTTPException out, so
    the framework's own 500 is never what the client sees; and the status
    code of every answer is one of the codes of the handler routed to. *)
Theorem handlers_raise_http_only (py_repr : value → string) (cfg : Config)
    (env : Env) (r : Request) (w : World) :
  (∀ msg, (route py_repr cfg env r w).1 ≠ Raise (Exception msg)) ∧
  status_of (respond (route py_repr cfg env r) w).1 ∈ codes_of r.
Proof.
  split.
  - intros msg. destruct r; simpl;
      [ unfold root | unfold health_check | unfold create_order
      | unfold get_order | unfold update_order_status | unfold list_orders
      | unfold upload_file ];
      run_handler; simpl;
      repeat (match goal with
              | |- context [match ?x with _ => _ end] => destruct x; simpl
              end);
      discriminate.
  - destruct r; cbn [route codes_of].
    + destruct (root_run cfg env w) as [body ->]. set_solver.
    + rewrite health_check_run. destruct (dynamodb_fault env); set_solver.
    + rewrite create_order_run. cbv zeta.
      destruct (dynamodb_fault env); [set_solver|].
      destruct (item_key _); [|set_solver].
      destruct (events_fault env); set_solver.
    + rewrite get_order_run. destruct (dynamodb_fault env); [set_solver|].
      destruct (partition_items _ _); set_solver.
    + rewrite update_order_status_run.
      destruct (status_data !! "status") as [s|]; [|set_solver].
      destruct (str_falsy s); [set_solver|]. cbv zeta.
      destruct (dynamodb_fault env); [set_solver|].
      destruct (events_fault env); set_solver.
    + rewrite list_orders_run. destruct (dynamodb_fault env); set_solver.
    + rewrite upload_file_run. destruct (str_falsy _); [set_solver|]. cbv zeta.
      destruct (s3_fault env); set_solver.
Qed.

(** X4: the answers of the three writing handlers depend on the request
    and on its environment only. The handlers never read the store, so an
    order id or an object key that is already in use goes unnoticed. *)
Theorem writes_answer_without_reading (py_repr : value → string) (cfg : Config)
    (env : Env) (w w' : World) :
  (∀ order, (respond (create_order cfg env order) w).1
            = (respond (create_order cfg env order) w').1) ∧
  (∀ order_id status_data,
     (respond (update_order_status cfg env order_id status_data) w).1
     = (respond (update_order_status cfg env order_id status_data) w').1) ∧
  (∀ file_data, (respond (upload_file py_repr cfg env file_data) w).1
                = (respond (upload_file py_repr cfg env file_data) w').1).
Proof.
  split; [|split].
  - intros order. rewrite !create_order_run. cbv zeta.
    destruct (dynamodb_fault env); [done|].
    destruct (item_key _); [|done].
    destruct (events_fault env); done.
  - intros order_id status_data. rewrite !update_order_status_run.
    destruct (status_data !! "status") as [s|]; [|done].
    destruct (str_falsy s); [done|]. cbv zeta.
    destruct (dynamodb_fault env); [done|].
    destruct (events_fault env); done.
  - intros file_data. rewrite !upload_file_run.
    destruct (str_falsy _); [done|]. cbv zeta.
    destruct (s3_fault env); done.
Qed.

(** ** PUT /orders/{order_id}/status, further *)

(** X5: only the [status] entry of the body is read. Two bodies with the
    same [status] get the same answer and leave the same world; any other
    entry of the body is dropped. *)
Theorem update_status_reads_status_only (cfg : Config) (env : Env)
    (order_id : string) (d d' : gmap string string) (w : World) :
  d !! "status" = d' !! "status" →
  respond (update_order_status cfg env order_id d) w
  = respond (update_order_status cfg env order_id d') w.
Proof. intros Hd. by rewrite !update_order_status_run, Hd. Qed.

Lemma update_status_reads_status_only_witness :
  respond (update_order_status cfg0 (env_ok "u9" "t9") "u1" status_with_note) w_book
  = respond (update_order_status cfg0 (env_ok "u9" "t9") "u1" status_shipped) w_book.
Proof.
  apply (update_status_reads_status_only cfg0 (env_ok "u9" "t9") "u1"
           status_with_note status_shipped w_book).
  reflexivity.
Defined.

(** ** Events *)



(** X7: on success of POST /orders and of PUT status, the last call issued
    is the publish of one entry whose detail is exactly the body answered
    to the client: same order id, status and timestamp. The entry is sent
    from source [myapp.orders] to the bus named by EVENT_BUS_NAME, and it
    is all that the request can have added to the bus. *)
Theorem event_detail_is_answer (cfg : Config) (env : Env) (w : World) :
  (∀ order body w',
     respond (create_order cfg env order) w = (OK body, w') →
     ∃ ev pre, calls w' = (pre ++ [PutEvents ev])%list ∧ Detail ev = body ∧
               DetailType ev = "Order Created" ∧ Source ev = "myapp.orders" ∧
               EventBusName ev = EVENT_BUS_NAME cfg ∧
               (bus w' = bus w ∨ bus w' = (bus w ++ [ev])%list)) ∧
  (∀ order_id status_data body w',
     respond (update_order_status cfg env order_id status_data) w = (OK body, w') →
     ∃ ev pre, calls w' = (pre ++ [PutEvents ev])%list ∧ Detail ev = body ∧
               DetailType ev = "Order Status Updated" ∧ Source ev = "myapp.orders" ∧
               EventBusName ev = EVENT_BUS_NAME cfg ∧
               (bus w' = bus w ∨ bus w' = (bus w ++ [ev])%list)).
Proof.
  split.
  - intros order body w'. rewrite create_order_run. cbv zeta.
    destruct (dynamodb_fault env); [discriminate|].
    destruct (item_key _); [|discriminate].
    destruct (events_fault env); [discriminate|].
    intros [= <- <-]. eexists _, _. simpl. split; [reflexivity|].
    repeat (split; [done|]).
    unfold bus_after. destruct (events_rejected env); auto.
  - intros order_id status_data body w'. rewrite update_order_status_run.
    destruct (status_data !! "status") as [s|]; [|discriminate].
    destruct (str_falsy s); [discriminate|]. cbv zeta.
    destruct (dynamodb_fault env); [discriminate|].
    destruct (events_fault env); [discriminate|].
    intros [= <- <-]. eexists _, _. simpl. split; [reflexivity|].
    repeat (split; [done|]).
    unfold bus_after. destruct (events_rejected env); auto.
Qed.

Lemma event_detail_is_answer_witness :
  ∃ ev pre, calls w_book = (pre ++ [PutEvents ev])%list ∧
            Detail ev = {[ "order_id" := VStr "u1"; "status" := VStr "created";
                           "timestamp" := VStr "t1" ]}.
Proof.
  destruct (event_detail_is_answer cfg0 (env_ok "u1" "t1") w0) as [Hc _].
  destruct (Hc book_order
              {[ "order_id" := VStr "u1"; "status" := VStr "created";
                 "timestamp" := VStr "t1" ]} w_book) as (ev & pre & Hcalls & Hd & _).
  - vm_compute. reflexivity.
  - exists ev, pre. split; [exact Hcalls | exact Hd].
Defined.

(** ** Failures of the table *)

(** X8: when the call to the table raises, the request changes neither
    the table nor the event bus, no event is published, and the client is
    given the exception's own message behind the handler's prefix: 500
    for the order routes, 503 for the health check. *)
Theorem table_failure_changes_nothing (py_repr : value → string) (cfg : Config)
    (env : Env) (msg : string) (w : World) :
  dynamodb_fault env = Some msg →
  (∀ r, table (respond (route py_repr cfg env r) w).2 = table w ∧
        bus (respond (route py_repr cfg env r) w).2 = bus w) ∧
  (∀ order, (respond (create_order cfg env order) w).1
            = Error 500 ("Failed to create order: " +:+ msg)) ∧
  (∀ order_id, (respond (get_order cfg env order_id) w).1
               = Error 500 ("Failed to get order: " +:+ msg)) ∧
  (∀ order_id status_data s,
     status_data !! "status" = Some s → s ≠ "" →
     (respond (update_order_status cfg env order_id status_data) w).1
     = Error 500 ("Failed to update order: " +:+ msg)) ∧
  (respond (list_orders cfg env) w).1 = Error 500 ("Failed to list orders: " +:+ msg) ∧
  (respond (health_check cfg env) w).1 = Error 503 ("Service unhealthy: " +:+ msg).
Proof.
  intros Hd. repeat split.
  - destruct r; cbn [route].
    + by destruct (root_run cfg env w) as [body ->].
    + by rewrite health_check_run.
    + by rewrite create_order_run, Hd.
    + by rewrite get_order_run.
    + rewrite update_order_status_run.
      destruct (status_data !! "status") as [s|]; [|done].
      destruct (str_falsy s); [done|]. by rewrite Hd.
    + by rewrite list_orders_run.
    + rewrite upload_file_run. destruct (str_falsy _); [done|]. cbv zeta.
      by destruct (s3_fault env).
  - destruct r; cbn [route].
    + by destruct (root_run cfg env w) as [body ->].
    + by rewrite health_check_run.
    + by rewrite create_order_run, Hd.
    + by rewrite get_order_run.
    + rewrite update_order_status_run.
      destruct (status_data !! "status") as [s|]; [|done].
      destruct (str_falsy s); [done|]. by rewrite Hd.
    + by rewrite list_orders_run.
    + rewrite upload_file_run. destruct (str_falsy _); [done|]. cbv zeta.
      by destruct (s3_fault env).
  - intros order. by rewrite create_order_run, Hd.
  - intros order_id. by rewrite get_order_run, Hd.
  - intros order_id status_data s Hs Hne.
    by rewrite update_order_status_run, Hs, (str_falsy_false s Hne), Hd.
  - by rewrite list_orders_run, Hd.
  - by rewrite health_check_run, Hd.
Qed.

Lemma table_failure_changes_nothing_witness :
  table (respond (route (λ _, "") cfg0 env_throttled (POST_orders book_order)) w_book).2
    = table w_book ∧
  (respond (create_order cfg0 env_throttled book_order) w_book).1
    = Error 500 "Failed to create order: ProvisionedThroughputExceededException".
Proof.
  destruct (table_failure_changes_nothing (λ _, "") cfg0 env_throttled
              "ProvisionedThroughputExceededException" w_book)
    as (Hsame & Hcreate & _); [reflexivity|].
  split; [apply Hsame | apply Hcreate].
Defined.

(** ** POST /files/upload, further *)

(** X9: with a bucket configured and the write going through, the object
    key is [uploads/<uuid>-file] when the body has no [filename], and
    [uploads/<uuid>-<name>] when its [filename] is the string [name];
    neither depends on how other values are printed. The whole body,
    [filename] included, is what is stored, and the table and the event
    bus are not touched. *)
Theorem upload_file_key_from_filename (py_repr : value → string) (cfg : Config)
    (env : Env) (file_data : dict) (w : World) :
  S3_BUCKET cfg ≠ "" → s3_fault env = None →
  let r := respond (upload_file py_repr cfg env file_data) w in
  (file_data !! "filename" = None →
     r.1 = OK {[ "file_key" := VStr ("uploads/" +:+ uuid4 env +:+ "-file");
                 "bucket" := VStr (S3_BUCKET cfg);
                 "timestamp" := VStr (utcnow env) ]} ∧
     objects r.2 !! (S3_BUCKET cfg, "uploads/" +:+ uuid4 env +:+ "-file")
       = Some (mkObject file_data "application/json")) ∧
  (∀ name, file_data !! "filename" = Some (VStr name) →
     r.1 = OK {[ "file_key" := VStr ("uploads/" +:+ uuid4 env +:+ "-" +:+ name);
                 "bucket" := VStr (S3_BUCKET cfg);
                 "timestamp" := VStr (utcnow env) ]} ∧
     objects r.2 !! (S3_BUCKET cfg, "uploads/" +:+ uuid4 env +:+ "-" +:+ name)
       = Some (mkObject file_data "application/json")) ∧
  table r.2 = table w ∧ bus r.2 = bus w.
Proof.
  intros Hb Hs r. subst r.
  rewrite upload_file_run, (str_falsy_false _ Hb), Hs. cbv zeta.
  split; [|split].
  - intros ->. simpl. split; [done|]. by rewrite lookup_insert_eq.
  - intros name ->. simpl. split; [done|]. by rewrite lookup_insert_eq.
  - done.
Qed.

Lemma upload_file_key_from_filename_witness :
  (respond (upload_file (λ _, "?") cfg0 (env_ok "u7" "t7") no_filename) w0).1
    = OK {[ "file_key" := VStr "uploads/u7-file"; "bucket" := VStr "demo-bucket";
            "timestamp" := VStr "t7" ]} ∧
  (respond (upload_file (λ _, "?") cfg0 (env_ok "u7" "t7") a_txt) w0).1
    = OK {[ "file_key" := VStr "uploads/u7-a.txt"; "bucket" := VStr "demo-bucket";
            "timestamp" := VStr "t7" ]}.
Proof.
  split.
  - destruct (upload_file_key_from_filename (λ _, "?") cfg0 (env_ok "u7" "t7")
                no_filename w0) as ([H _]%(λ H, H eq_refl) & _);
      [discriminate | reflexivity |].
    rewrite H. vm_compute. reflexivity.
  - destruct (upload_file_key_from_filename (λ _, "?") cfg0 (env_ok "u7" "t7")
                a_txt w0) as (_ & H & _); [discriminate | reflexivity |].
    destruct (H "a.txt") as [H' _]; [reflexivity|].
    rewrite H'. vm_compute. reflexivity.
Defined.

(** ** Whole runs *)

(** One request only adds: calls to the log, entries to the bus, keys to
    the table and to the object store. *)
Lemma respond_only_adds (py_repr : value → string) (cfg : Config) (env : Env)
    (r : Request) (w : World) :
  calls w `prefix_of` calls (respond (route py_repr cfg env r) w).2 ∧
  bus w `prefix_of` bus (respond (route py_repr cfg env r) w).2 ∧
  dom (table w) ⊆ dom (table (respond (route py_repr cfg env r) w).2) ∧
  dom (objects w) ⊆ dom (objects (respond (route py_repr cfg env r) w).2).
Proof.
  assert (∀ (A : Type) (l k : list A), l `prefix_of` (l ++ k)%list) as Hp
    by (intros; by eexists).
  assert (∀ (A : Type) (l k1 k2 : list A), l `prefix_of` ((l ++ k1) ++ k2)%list) as Hp2
    by (intros; rewrite <-app_assoc; by eexists).
  destruct r; cbn [route].
  - by destruct (root_run cfg env w) as [body ->].
  - rewrite health_check_run. simpl. auto.
  - rewrite create_order_run. cbv zeta.
    destruct (dynamodb_fault env); simpl; [auto|].
    destruct (item_key _); simpl; [|auto].
    destruct (events_fault env); simpl;
      (split; [auto|]);
      (split; [unfold bus_after; destruct (events_rejected env); auto|]);
      (split; [set_solver|done]).
  - rewrite get_order_run. simpl. auto.
  - rewrite update_order_status_run.
    destruct (status_data !! "status") as [s|]; [|done].
    destruct (str_falsy s); [done|]. cbv zeta.
    destruct (dynamodb_fault env); simpl; [auto|].
    destruct (events_fault env); simpl;
      (split; [auto|]);
      (split; [unfold bus_after; destruct (events_rejected env); auto|]);
      (split; [set_solver|done]).
  - rewrite list_orders_run. simpl. auto.
  - rewrite upload_file_run. destruct (str_falsy _); [done|]. cbv zeta.
    destruct (s3_fault env); simpl; [auto|].
    split; [auto|]. split; [done|]. split; [done|set_solver].
Qed.

(** X10: over any run of requests there is one answer per request, and
    the service never loses anything: the calls and the events of the
    starting world stay at the front of the log and of the bus, and every
    key of the table and of the object store is still there at the end. No
    handler deletes. *)
Theorem serve_only_adds (py_repr : value → string) (cfg : Config)
    (reqs : list (Env * Request)) (w : World) :
  length (serve py_repr cfg reqs w).1 = length reqs ∧
  calls w `prefix_of` calls (serve py_repr cfg reqs w).2 ∧
  bus w `prefix_of` bus (serve py_repr cfg reqs w).2 ∧
  dom (table w) ⊆ dom (table (serve py_repr cfg reqs w).2) ∧
  dom (objects w) ⊆ dom (objects (serve py_repr cfg reqs w).2).
Proof.
  revert w. induction reqs as [|[env r] reqs IH]; intros w; [done|].
  simpl.
  pose proof (respond_only_adds py_repr cfg env r w) as (Hc & Hb & Ht & Ho).
  destruct (respond (route py_repr cfg env r) w) as [resp w1].
  specialize (IH w1). destruct (serve py_repr cfg reqs w1) as [resps w2].
  simpl in *. destruct IH as (Hl & Hc' & Hb' & Ht' & Ho').
  split; [by rewrite Hl|].
  split; [by etrans|]. split; [by etrans|]. split; set_solver.
Qed.

Lemma item_key_insert_other (f : string) (v : value) (item : dict) :
  f ≠ "pk" → f ≠ "sk" → item_key (<[f := v]> item) = item_key item.
Proof.
  intros Hpk Hsk. unfold item_key. by rewrite !lookup_insert_ne.
Qed.

Lemma item_key_updated_item (env : Env) (order_id status timestamp : string)
    (t : gmap key dict) :
  keys_agree t →
  item_key (updated_item t (update_key env order_id) status timestamp)
  = Some (update_key env order_id).
Proof.
  intros Hagree. unfold updated_item.
  rewrite !item_key_insert_other by done.
  destruct (t !! update_key env order_id) as [old|] eqn:Hold; simpl.
  - by apply Hagree.
  - vm_compute. reflexivity.
Qed.

Lemma keys_agree_insert (t : gmap key dict) (k : key) (item : dict) :
  keys_agree t → item_key item = Some k → keys_agree (<[k := item]> t).
Proof.
  intros Hagree Hk k' item'. rewrite lookup_insert.
  case_decide as Heq; [|by apply Hagree].
  intros [= <-]. by subst k'.
Qed.

Lemma respond_keys_agree (py_repr : value → string) (cfg : Config) (env : Env)
    (r : Request) (w : World) :
  keys_agree (table w) → keys_agree (table (respond (route py_repr cfg env r) w).2).
Proof.
  intros Hagree. destruct r; cbn [route].
  - by destruct (root_run cfg env w) as [body ->].
  - by rewrite health_check_run.
  - rewrite create_order_run. cbv zeta.
    destruct (dynamodb_fault env); simpl; [done|].
    destruct (item_key _) eqn:Hk; simpl; [|done].
    destruct (events_fault env); simpl; by apply keys_agree_insert.
  - by rewrite get_order_run.
  - rewrite update_order_status_run.
    destruct (status_data !! "status") as [s|]; [|done].
    destruct (str_falsy s); [done|]. cbv zeta.
    destruct (dynamodb_fault env); simpl; [done|].
    destruct (events_fault env); simpl;
      by apply keys_agree_insert, item_key_updated_item.
  - by rewrite list_orders_run.
  - rewrite upload_file_run. destruct (str_falsy _); [done|]. cbv zeta.
    by destruct (s3_fault env).
Qed.

(** X11: if every item of the table carries in [pk] and [sk] the key it is
    stored under, this is still so after any run of requests: what
    create-order writes is filed under the [pk] and [sk] of the item
    itself, also when the body supplied them, and a status update never
    changes those two attributes. *)
Theorem serve_keeps_keys_agree (py_repr : value → string) (cfg : Config)
    (reqs : list (Env * Request)) (w : World) :
  keys_agree (table w) → keys_agree (table (serve py_repr cfg reqs w).2).
Proof.
  revert w. induction reqs as [|[env r] reqs IH]; intros w Hagree; [done|].
  simpl.
  pose proof (respond_keys_agree py_repr cfg env r w Hagree) as H1.
  destruct (respond (route py_repr cfg env r) w) as [resp w1].
  specialize (IH w1 H1). by destruct (serve py_repr cfg reqs w1) as [resps w2].
Qed.

Lemma serve_keeps_keys_agree_witness :
  keys_agree (table (serve (λ _, "") cfg0 mixed_run w0).2).
Proof.
  apply serve_keeps_keys_agree. intros k item Hk. discriminate Hk.
Defined.

(** ** The order of a partition *)

Lemma ascii_compare_refl (c : Ascii.ascii) : Ascii.compare c c = Eq.
Proof. unfold Ascii.compare. apply N.compare_refl. Qed.

Lemma string_compare_refl (s : string) : String.compare s s = Eq.
Proof. induction s as [|c s IH]; [done|]. simpl. by rewrite ascii_compare_refl. Qed.

Lemma string_leb_refl (s : string) : String.leb s s = true.
Proof. unfold String.leb. by rewrite string_compare_refl. Qed.

Lemma string_compare_not_gt_trans (a b c : string) :
  String.compare a b ≠ Gt → String.compare b c ≠ Gt → String.compare a c ≠ Gt.
Proof.
  revert b c. induction a as [|x a IH]; intros [|y b] [|z c]; simpl; try done.
  destruct (Ascii.compare x y) eqn:Hxy; [| |done].
  - apply Ascii.compare_eq_iff in Hxy as ->.
    destruct (Ascii.compare y z); [apply IH|done|done].
  - intros _. destruct (Ascii.compare y z) eqn:Hyz; [| |done].
    + apply Ascii.compare_eq_iff in Hyz as <-. by rewrite Hxy.
    + intros _. unfold Ascii.compare in *.
      apply N.compare_lt_iff in Hxy. apply N.compare_lt_iff in Hyz.
      pose proof (N.lt_trans _ _ _ Hxy Hyz) as Hxz.
      apply N.compare_lt_iff in Hxz. by rewrite Hxz.
Qed.

Lemma string_leb_trans (a b c : string) :
  String.leb a b = true → String.leb b c = true → String.leb a c = true.
Proof.
  unfold String.leb. intros Hab Hbc.
  pose proof (string_compare_not_gt_trans a b c) as H.
  destruct (String.compare a b), (String.compare b c), (String.compare a c);
    try done; exfalso; by apply H.
Qed.


Lemma insert_by_sk_perm (x : key * dict) (l : list (key * dict)) :
  insert_by_sk x l ≡ₚ x :: l.
Proof.
  induction l as [|y l IH]; [done|]. simpl.
  destruct (String.leb _ _); [done|]. rewrite IH. apply Permutation_swap.
Qed.

Lemma sort_by_sk_perm (l : list (key * dict)) : sort_by_sk l ≡ₚ l.
Proof.
  induction l as [|x l IH]; [done|]. simpl.
  by rewrite insert_by_sk_perm, IH.
Qed.

(** The head of a sorted partition has the least sort key. *)
Lemma sort_by_sk_head_least (l : list (key * dict)) (x : key * dict)
    (rest : list (key * dict)) :
  sort_by_sk l = x :: rest → ∀ y, y ∈ l → String.leb x.1.2 y.1.2 = true.
Proof.
  revert x rest. induction l as [|a l IH]; intros x rest; [done|].
  simpl. destruct (sort_by_sk l) as [|m s'] eqn:Hs; simpl.
  - intros [= <- <-] y Hy.
    assert (l = []) as -> by (apply Permutation_nil_r; by rewrite <-sort_by_sk_perm, Hs).
    apply list_elem_of_singleton in Hy as ->. apply string_leb_refl.
  - specialize (IH m s' eq_refl).
    destruct (String.leb a.1.2 m.1.2) eqn:Ham.
    + intros [= <- <-] y [->|Hy]%elem_of_cons; [apply string_leb_refl|].
      eapply string_leb_trans; [exact Ham|by apply IH].
    + intros [= <- <-] y [->|Hy]%elem_of_cons; [|by apply IH].
      destruct (String.leb_total m.1.2 a.1.2) as [H|H]; [done|congruence].
Qed.

Lemma elem_of_filter_pk (pk : string) (t : gmap key dict) (k : key) (item : dict) :
  (k, item) ∈ filter (λ kv : key * dict, kv.1.1 = pk) (map_to_list t) ↔
  k.1 = pk ∧ t !! k = Some item.
Proof. rewrite list_elem_of_filter, elem_of_map_to_list. naive_solver. Qed.

(** What the first item of a partition is: an item stored in that
    partition, under its least sort key. *)
Lemma partition_items_head (pk : string) (t : gmap key dict) (rec : dict)
    (rest : list dict) :
  partition_items pk t = rec :: rest →
  ∃ sk, t !! (pk, sk) = Some rec ∧
        ∀ sk' rec', t !! (pk, sk') = Some rec' → String.leb sk sk' = true.
Proof.
  unfold partition_items. intros Hp.
  destruct (sort_by_sk _) as [|[[p sk] rec0] l'] eqn:Hs; [done|].
  injection Hp as -> _.
  assert (((p, sk), rec) ∈ filter (λ kv : key * dict, kv.1.1 = pk) (map_to_list t))
    as Hin by (rewrite <-sort_by_sk_perm, Hs; left).
  apply elem_of_filter_pk in Hin as [Hpk Hin]. simpl in Hpk. subst p.
  exists sk. split; [done|]. intros sk' rec' Hin'.
  apply (sort_by_sk_head_least _ _ _ Hs ((pk, sk'), rec')).
  by apply elem_of_filter_pk.
Qed.


(** ** GET /orders/{order_id}, further *)

(** X12: the record that a successful GET /orders/{id} returns is stored
    in the table under partition key ORDER#<id>, and among the records of
    that partition it is the one with the least sort key. *)
Theorem get_order_least_sort_key (cfg : Config) (env : Env) (order_id : string)
    (w w' : World) (rec : dict) :
  respond (get_order cfg env order_id) w = (OK rec, w') →
  ∃ sk, table w !! ("ORDER#" +:+ order_id, sk) = Some rec ∧
        ∀ sk' rec', table w !! ("ORDER#" +:+ order_id, sk') = Some rec' →
                    String.leb sk sk' = true.
Proof.
  rewrite get_order_run.
  destruct (dynamodb_fault env); [discriminate|].
  destruct (partition_items _ _) as [|item rest] eqn:Hp; [discriminate|].
  intros [= <- _]. by eapply partition_items_head.
Qed.

Lemma get_order_least_sort_key_witness :
  ∃ sk, table w_book_paid !! ("ORDER#" +:+ "u1", sk)
          = Some (order_item "u1" "t1" book_order) ∧
        ∀ sk' rec', table w_book_paid !! ("ORDER#" +:+ "u1", sk') = Some rec' →
                    String.leb sk sk' = true.
Proof.
  apply (get_order_least_sort_key cfg0 (env_ok "u3" "t3") "u1" w_book_paid
           (logged w_book_paid (Query "ORDER#u1"))).
  vm_compute. reflexivity.
Defined.






(** ** GET /orders, further *)

(** X15: GET /orders makes one scan call and no second one, so what it
    lists is the first page of the table. Every record listed is stored
    in the table and [count] is the number of records listed, never more
    than the table holds. If the table fits in the page, every stored item
    is listed; if it does not, the listing falls short of the table and
    nothing in the answer says so. *)
Theorem list_orders_first_page_only (cfg : Config) (env : Env) (w w' : World)
    (body : dict) :
  respond (list_orders cfg env) w = (OK body, w') →
  calls w' = (calls w ++ [Scan])%list ∧
  ∃ items : list dict,
    body = {[ "orders" := VList (VDict <$> items);
              "count" := VInt (Z.of_nat (length items)) ]} ∧
    (∀ item, item ∈ items → ∃ k, table w !! k = Some item) ∧
    (length items ≤ size (table w))%nat ∧
    ((size (table w) ≤ scan_page env)%nat →
       length items = size (table w) ∧
       ∀ k item, table w !! k = Some item → item ∈ items) ∧
    ((scan_page env < size (table w))%nat →
       (length items < size (table w))%nat).
Proof.
  rewrite list_orders_run.
  destruct (dynamodb_fault env); [discriminate|].
  intros [= <- <-]. split; [done|].
  exists (take (scan_page env) (map_to_list (table w)).*2).
  assert (length (map_to_list (table w)).*2 = size (table w)) as Hlen
    by (by rewrite length_fmap, length_map_to_list).
  split; [done|]. split; [|split; [|split]].
  - intros item Hin.
    assert (item ∈ (map_to_list (table w)).*2) as Hin'
      by (eapply elem_of_sublist; [exact Hin|apply sublist_take]).
    apply list_elem_of_fmap in Hin' as ([k it] & -> & Hk).
    exists k. by apply elem_of_map_to_list.
  - rewrite length_take. lia.
  - intros Hfits. rewrite take_ge by lia. split; [done|].
    intros k item Hk. apply list_elem_of_fmap. exists (k, item).
    split; [done|]. by apply elem_of_map_to_list.
  - intros Hcut. rewrite length_take. lia.
Qed.

Lemma list_orders_first_page_only_witness :
  ∃ items : list dict,
    (length items < size (table w_book_paid))%nat ∧
    ∀ item, item ∈ items → ∃ k, table w_book_paid !! k = Some item.
Proof.
  destruct (list_orders_first_page_only cfg0 (env_small_page "u4" "t4") w_book_paid
              (respond (list_orders cfg0 (env_small_page "u4" "t4")) w_book_paid).2
              (match (respond (list_orders cfg0 (env_small_page "u4" "t4"))
                        w_book_paid).1 with
               | OK body => body
               | Error _ _ => ∅
               end))
    as (_ & items & _ & Hin & _ & _ & Hcut); [vm_compute; reflexivity|].
  exists items. split; [|exact Hin]. apply Hcut. vm_compute. lia.
Defined.

(** ** POST /orders, further *)

(** X16: on success the record stored has the fields of the body and the
    five generated ones, and no others. Its [order_id] and [created_at] are
    the id and the timestamp answered to the client unless the body has
    fields of those names, in which case the record holds the body's
    values and the answer still gives the generated ones. *)
Theorem create_order_record_shape (cfg : Config) (env : Env) (order : dict)
    (w w' : World) (body : dict) :
  respond (create_order cfg env order) w = (OK body, w') →
  body = {[ "order_id" := VStr (uuid4 env); "status" := VStr "created";
            "timestamp" := VStr (utcnow env) ]} ∧
  ∃ k item,
    table w' !! k = Some item ∧
    dom item = dom order ∪ {[ "pk"; "sk"; "order_id"; "status"; "created_at" ]} ∧
    (∀ f v, order !! f = Some v → item !! f = Some v) ∧
    (order !! "order_id" = None → item !! "order_id" = Some (VStr (uuid4 env))) ∧
    (order !! "created_at" = None → item !! "created_at" = Some (VStr (utcnow env))).
Proof.
  rewrite create_order_run. cbv zeta.
  destruct (dynamodb_fault env); [discriminate|].
  destruct (item_key _) as [k|] eqn:Hk; [|discriminate].
  destruct (events_fault env); [discriminate|].
  intros [= <- <-]. split; [done|].
  exists k, (order_item (uuid4 env) (utcnow env) order). simpl.
  split; [by rewrite lookup_insert_eq|]. split; [|split; [|split]].
  - unfold order_item, dict_merge.
    rewrite dom_union_L, !dom_insert_L, dom_singleton_L. set_solver.
  - intros f v. apply order_item_supplied.
  - intros Hf. by rewrite order_item_generated.
  - intros Hf. by rewrite order_item_generated.
Qed.

Lemma create_order_record_shape_witness :
  ∃ k item,
    table w_book !! k = Some item ∧
    dom item = dom book_order ∪ {[ "pk"; "sk"; "order_id"; "status"; "created_at" ]} ∧
    (∀ f v, book_order !! f = Some v → item !! f = Some v) ∧
    (book_order !! "order_id" = None → item !! "order_id" = Some (VStr "u1")) ∧
    (book_order !! "created_at" = None → item !! "created_at" = Some (VStr "t1")).
Proof.
  apply (create_order_record_shape cfg0 (env_ok "u1" "t1") book_order w0 w_book
           {[ "order_id" := VStr "u1"; "status" := VStr "created";
              "timestamp" := VStr "t1" ]}).
  vm_compute. reflexivity.
Defined.

(** ** PUT /orders/{order_id}/status and its event *)

(** X17: for a non-empty status, the "Order Status Updated" entry is
    published only after the update was applied: the bus is unchanged or
    has gained that one entry, and if it has gained it, the answer is 200
    and the table holds the updated item. When the update goes through and
    the publish raises, the answer is a 500 with the exception's message
    and the status written stays in the table. When the publish returns
    with the entry not accepted, the answer is 200 all the same and the
    bus is as it was. *)
Theorem update_status_event_follows_write (cfg : Config) (env : Env)
    (order_id : string) (status_data : gmap string string) (s : string) (w : World) :
  status_data !! "status" = Some s → s ≠ "" →
  let k := update_key env order_id in
  let ev := status_event cfg env order_id s in
  let r := respond (update_order_status cfg env order_id status_data) w in
  (bus r.2 = bus w ∨ bus r.2 = (bus w ++ [ev])%list) ∧
  (bus r.2 = (bus w ++ [ev])%list →
     (∃ body, r.1 = OK body) ∧
     table r.2 !! k = Some (updated_item (table w) k s (utcnow env))) ∧
  (∀ msg, dynamodb_fault env = None → events_fault env = Some msg →
     r.1 = Error 500 ("Failed to update order: " +:+ msg) ∧
     table r.2 !! k = Some (updated_item (table w) k s (utcnow env)) ∧
     updated_item (table w) k s (utcnow env) !! "status" = Some (VStr s)) ∧
  (dynamodb_fault env = None → events_fault env = None →
   events_rejected env = true →
     r.1 = OK {[ "order_id" := VStr order_id; "status" := VStr s;
                 "timestamp" := VStr (utcnow env) ]} ∧
     bus r.2 = bus w ∧
     table r.2 !! k = Some (updated_item (table w) k s (utcnow env))).
Proof.
  intros Hs Hne k ev r. subst k ev r.
  rewrite update_order_status_run, Hs, (str_falsy_false s Hne). cbv zeta.
  assert (∀ (l : list Entry) e, l ≠ (l ++ [e])%list) as Hgrow.
  { intros l e Heq. apply (f_equal length) in Heq.
    rewrite length_app in Heq. simpl in Heq. lia. }
  destruct (dynamodb_fault env); simpl.
  { split; [by left|]. split; [by intros ?%Hgrow|]. split; [by intros msg|done]. }
  destruct (events_fault env) as [msg0|]; simpl.
  - split; [by left|]. split; [by intros ?%Hgrow|]. split; [|done].
    intros msg _ [= <-]. split; [done|]. split; [by rewrite lookup_insert_eq|].
    unfold updated_item.
    by rewrite lookup_insert_ne, lookup_insert_eq.
  - unfold bus_after. destruct (events_rejected env); simpl.
    + split; [by left|]. split; [by intros ?%Hgrow|]. split; [by intros msg|].
      intros _ _ _. by rewrite lookup_insert_eq.
    + split; [by right|].
      split; [intros _; split; [eauto|by rewrite lookup_insert_eq]|].
      split; [by intros msg|done].
Qed.

Lemma update_status_event_follows_write_witness :
  (respond (update_order_status cfg0 env_bus_down "u1" status_shipped) w_book).1
    = Error 500 "Failed to update order: InternalFailure" ∧
  (∃ item,
     table (respond (update_order_status cfg0 env_bus_down "u1" status_shipped) w_book).2
       !! update_key env_bus_down "u1" = Some item ∧
     item !! "status" = Some (VStr "shipped")) ∧
  bus (respond (update_order_status cfg0 (env_bus_rejects "u2" "t2") "u1" status_shipped)
         w_book).2 = bus w_book.
Proof.
  destruct (update_status_event_follows_write cfg0 env_bus_down "u1" status_shipped
              "shipped" w_book) as (_ & _ & Hfail & _); [reflexivity | discriminate |].
  destruct (update_status_event_follows_write cfg0 (env_bus_rejects "u2" "t2") "u1"
              status_shipped "shipped" w_book) as (_ & _ & _ & Hrej);
    [reflexivity | discriminate |].
  destruct (Hfail "InternalFailure") as (Hr & Ht & Hst); [reflexivity | reflexivity |].
  destruct Hrej as (_ & Hbus & _); [reflexivity | reflexivity | reflexivity |].
  split; [exact Hr|]. split; [|exact Hbus].
  eexists. split; [exact Ht | exact Hst].
Defined.
